(** * Pharmacy lookup adapter: the three revisions of [getPharmacyData]

    The repository holds three revisions of one Cloud Function,
    [pharmacy-backend-function/index.js] and two unnamed files.  Each is
    embedded below as a Rocq function over a small model of the JavaScript
    values it touches; the libraries it calls (axios, xml2js, the engine's
    [substring]) are taken as parameters. *)

From Stdlib Require Import String Ascii List ZArith Lia Bool DecimalString.
Import ListNotations.

Set Warnings "-register-all".
Local Open Scope list_scope.
Local Open Scope string_scope.
Local Open Scope nat_scope.

(** ** JavaScript values *)

(** A string holds the UTF-8 bytes of the JavaScript string.  Numbers are
    the integers the handler meets (status codes, lengths); they stay far
    below 10^21, where JavaScript still prints them in plain decimal.
    [JFun] is a built-in function object, reachable through
    [Object.prototype]. *)
Inductive jsval : Type :=
| JUndef
| JNull
| JBool (b : bool)
| JNum (n : Z)
| JStr (s : string)
| JArr (elems : list jsval)
| JObj (props : list (string * jsval))
| JFun (name : string).

(** ToBoolean. *)
Definition truthy (v : jsval) : bool :=
  match v with
  | JUndef | JNull => false
  | JBool b => b
  | JNum n => negb (n =? 0)%Z
  | JStr EmptyString => false
  | JStr (String _ _) => true
  | JArr _ | JObj _ | JFun _ => true
  end.

(** [a || b] on values. *)
Definition js_or (a b : jsval) : jsval := if truthy a then a else b.

(** [Array.isArray]. *)
Definition isArray (v : jsval) : bool :=
  match v with JArr _ => true | _ => false end.

Definition decimal (n : Z) : string := NilZero.string_of_int (Z.to_int n).

(** The text ToString gives, for a value that [converts] (below); for the
    others the conversion throws before any text is used (see [ToString]
    and [template]). *)
Fixpoint to_string (v : jsval) : string :=
  match v with
  | JUndef => "undefined"
  | JNull => "null"
  | JBool true => "true"
  | JBool false => "false"
  | JNum n => decimal n
  | JStr s => s
  | JArr elems =>
      (fix join (l : list jsval) : string :=
         match l with
         | [] => EmptyString
         | x :: r =>
             let sx := match x with
                       | JUndef | JNull => EmptyString
                       | _ => to_string x
                       end in
             match r with
             | [] => sx
             | _ :: _ => sx ++ "," ++ join r
             end
         end) elems
  | JObj _ => "[object Object]"
  | JFun name => "function " ++ name ++ "() { [native code] }"
  end.

(** [.length] of a string: the number of UTF-16 code units, read off the
    lead bytes of the UTF-8 encoding. *)
Definition utf16_units (c : ascii) : nat :=
  let n := nat_of_ascii c in
  if n <? 128 then 1
  else if n <? 192 then 0
  else if n <? 240 then 1
  else 2.

Fixpoint js_length (s : string) : nat :=
  match s with
  | EmptyString => 0
  | String c r => utf16_units c + js_length r
  end.

(** [v.length] for the receivers that have one. *)
Definition length_of (v : jsval) : jsval :=
  match v with
  | JStr s => JNum (Z.of_nat (js_length s))
  | JArr l => JNum (Z.of_nat (List.length l))
  | _ => JUndef
  end.

(** ** Objects and property lookup *)

Fixpoint assoc {A : Type} (k : string) (l : list (string * A)) : option A :=
  match l with
  | [] => None
  | (k', x) :: r => if String.eqb k k' then Some x else assoc k r
  end.

(** Whether ToString gives a text or throws.  A plain object is asked for
    its [toString] and then its [valueOf]; inherited, they give
    "[object Object]".  An own [toString] that came with a query string, a
    JSON body or an XML document is not a function, so the inherited
    [valueOf] is asked next, hands back the object itself, and the
    conversion ends in a TypeError.  (An own property holding a function
    comes from none of these sources; it is counted as failing too.)  An
    array converts when its elements do. *)
Fixpoint converts (v : jsval) : bool :=
  match v with
  | JArr elems =>
      (fix all (l : list jsval) : bool :=
         match l with
         | [] => true
         | x :: r => converts x && all r
         end) elems
  | JObj props =>
      match assoc "toString" props with
      | Some _ => false
      | None => true
      end
  | _ => true
  end.

(** What a plain object inherits: the twelve properties of
    [Object.prototype].  Eleven are built-in functions; [__proto__] reads
    back the prototype object itself. *)
Definition object_prototype (k : string) : jsval :=
  if String.eqb k "constructor" then JFun "Object"
  else if String.eqb k "__proto__" then JObj []
  else if existsb (String.eqb k)
            ["__defineGetter__"; "__defineSetter__"; "hasOwnProperty";
             "__lookupGetter__"; "__lookupSetter__"; "isPrototypeOf";
             "propertyIsEnumerable"; "toString"; "valueOf"; "toLocaleString"]
       then JFun k
  else JUndef.

(** [o[k]] on a plain object (an object literal, a parsed query, a node of
    the parsed XML): the own property, else the inherited one.  Other
    receivers own none of the names this program reads ([response], [body],
    [items], [item], [header], [resultMsg]), so they answer [undefined]. *)
Definition get_prop (o : jsval) (k : string) : jsval :=
  match o with
  | JObj props =>
      match assoc k props with
      | Some x => x
      | None => object_prototype k
      end
  | _ => JUndef
  end.

(** Optional chaining [o?.k]. *)
Definition opt_chain (o : jsval) (k : string) : jsval :=
  match o with
  | JUndef | JNull => JUndef
  | _ => get_prop o k
  end.

(** ** The libraries and the platform *)

(** The options given to [new xml2js.Parser]. *)
Record parser_options : Type :=
  { explicitArray : bool; ignoreAttrs : bool }.

(** What axios hands back: a status and the body, which axios leaves a
    string unless it reads as JSON. *)
Record axios_response : Type :=
  { status : Z; data : jsval }.

Inductive axios_result : Type :=
| Resolved (response : axios_response)
| Rejected (message : string) (response : option axios_response).

(** What the handler calls and does not define. *)
Record externals : Type :=
  { (* xml2js: [parser.parseStringPromise(x)], rejecting with a message
       or resolving with the tree *)
    parseStringPromise : parser_options -> jsval -> string + jsval;
    (* axios and the upstream behind it: [axios.get(url)] *)
    axios_get : string -> axios_result;
    (* the engine's [String.prototype.substring] *)
    substring : string -> Z -> Z -> string }.

Definition process_env : Type := list (string * string).

(** [process.env.NAME]. *)
Definition env_get (env : process_env) (name : string) : jsval :=
  match assoc name env with
  | Some s => JStr s
  | None => JUndef
  end.

(** The inbound request, as far as the handler reads it: [req.query]. *)
Record request : Type := { query : list (string * jsval) }.

(** ** Exceptions, effects and the handler monad *)

(** The error objects the handler can catch.  The one axios rejects with
    carries, besides its message and the response (if one came), the
    configuration of the request it made, of which [config.url] is kept
    here. *)
Inductive jsexn : Type :=
| AxiosError (message : string) (config_url : string)
    (response : option axios_response)
| Error (message : string)
| TypeError (message : string).

(** [error.message] and [error.response]. *)
Definition error_message (e : jsexn) : jsval :=
  match e with
  | AxiosError m _ _ | Error m | TypeError m => JStr m
  end.

Definition error_response (e : jsexn) : option axios_response :=
  match e with
  | AxiosError _ _ r => r
  | Error _ | TypeError _ => None
  end.

(** An argument of [console.log] / [console.error]. *)
Inductive logged : Type :=
| Val (v : jsval)
| Exn (e : jsexn).

Inductive event : Type :=
| console_log (args : list logged)
| console_error (args : list logged)
| get_request (url : string)
| res_status_json (code : Z) (body : jsval).

(** A computation emits events in program order and ends normally or by
    throwing. *)
Definition M (A : Type) : Type := (list event * (jsexn + A))%type.

Definition ret {A : Type} (a : A) : M A := ([], inr a).

Definition throw {A : Type} (e : jsexn) : M A := ([], inl e).

Definition bind {A B : Type} (m : M A) (k : A -> M B) : M B :=
  match m with
  | (t, inl e) => (t, inl e)
  | (t, inr a) => let (t', r) := k a in (t ++ t', r)%list
  end.

Definition emit (ev : event) : M unit := ([ev], inr tt).

(** [try { m } catch (e) { h e }]. *)
Definition try_catch {A : Type} (m : M A) (h : jsexn -> M A) : M A :=
  match m with
  | (t, inl e) => let (t', r) := h e in (t ++ t', r)%list
  | (t, inr a) => (t, inr a)
  end.

Declare Scope js_scope.
Delimit Scope js_scope with js.
Notation "x <- m ;; k" := (bind m (fun x => k))
  (at level 61, m at next level, right associativity) : js_scope.
Notation "m ;; k" := (bind m (fun _ => k))
  (at level 61, right associativity) : js_scope.
Local Open Scope js_scope.

Definition log (args : list logged) : M unit := emit (console_log args).
Definition log_error (args : list logged) : M unit := emit (console_error args).

(** [res.status(code).json(body)]. *)
Definition respond (code : Z) (body : jsval) : M unit :=
  emit (res_status_json code body).
Arguments respond code%_Z body.

(** ToString as an operation: the text, or the TypeError (V8's wording). *)
Definition conversion_error : jsexn :=
  TypeError "Cannot convert object to primitive value".

Definition ToString (v : jsval) : M string :=
  if converts v then ret (to_string v) else throw conversion_error.

(** A template literal (and likewise the [URLSearchParams] constructor):
    the substituted values are converted from left to right, and [text] is
    what they give together.  Whichever conversion fails, the TypeError is
    the same. *)
Definition template (values : list jsval) (text : string) : M string :=
  if forallb converts values then ret text else throw conversion_error.

(** [await axios.get(url)]. *)
Definition await_get (E : externals) (url : string) : M axios_response :=
  emit (get_request url) ;;
  match axios_get E url with
  | Resolved r => ret r
  | Rejected m r => throw (AxiosError m url r)
  end.

(** [await parser.parseStringPromise(x)]. *)
Definition await_parse (E : externals) (opts : parser_options) (x : jsval)
  : M jsval :=
  match parseStringPromise E opts x with
  | inl m => throw (Error m)
  | inr tree => ret tree
  end.

(** [x.substring(a, b)]: only a string has the method (the wording of the
    TypeError is V8's). *)
Definition call_substring (E : externals) (what : string) (x : jsval)
    (a b : Z) : M jsval :=
  match x with
  | JStr s => ret (JStr (substring E s a b))
  | JUndef =>
      throw (TypeError
        "Cannot read properties of undefined (reading 'substring')")
  | JNull =>
      throw (TypeError "Cannot read properties of null (reading 'substring')")
  | _ => throw (TypeError (what ++ ".substring is not a function"))
  end.

(** The application/x-www-form-urlencoded serializer behind
    [URLSearchParams.prototype.toString], on the UTF-8 bytes. *)
Definition hex_digit (n : nat) : ascii :=
  match n with
  | 0 => "0" | 1 => "1" | 2 => "2" | 3 => "3" | 4 => "4" | 5 => "5"
  | 6 => "6" | 7 => "7" | 8 => "8" | 9 => "9" | 10 => "A" | 11 => "B"
  | 12 => "C" | 13 => "D" | 14 => "E" | _ => "F"
  end%char.

Definition form_safe (c : ascii) : bool :=
  let n := nat_of_ascii c in
  ((48 <=? n) && (n <=? 57)) || ((65 <=? n) && (n <=? 90))
  || ((97 <=? n) && (n <=? 122))
  || (n =? 42) || (n =? 45) || (n =? 46) || (n =? 95).

Fixpoint urlencode (s : string) : string :=
  match s with
  | EmptyString => EmptyString
  | String c r =>
      let n := nat_of_ascii c in
      if form_safe c then String c (urlencode r)
      else if n =? 32 then String "+"%char (urlencode r)
      else String "%"%char
             (String (hex_digit (n / 16))
                (String (hex_digit (n mod 16)) (urlencode r)))
  end.

(** [new URLSearchParams({...}).toString()]. *)
Fixpoint URLSearchParams_toString (init : list (string * jsval)) : string :=
  match init with
  | [] => EmptyString
  | (k, v) :: r =>
      let kv := urlencode k ++ "=" ++ urlencode (to_string v) in
      match r with
      | [] => kv
      | _ :: _ => kv ++ "&" ++ URLSearchParams_toString r
      end
  end.

(** The path [jsonData?.response?.body?.items?.item]. *)
Definition items_item (jsonData : jsval) : jsval :=
  opt_chain (opt_chain (opt_chain (opt_chain jsonData "response") "body")
               "items") "item".

(** The path [errorJson?.response?.header?.resultMsg]. *)
Definition header_resultMsg (errorJson : jsval) : jsval :=
  opt_chain (opt_chain (opt_chain errorJson "response") "header") "resultMsg".

(** [error.response && error.response.data], as a condition. *)
Definition has_response_data (error : jsexn) : bool :=
  match error_response error with
  | Some r => truthy (data r)
  | None => false
  end.

(** [error.response.data] and [error.response.status] under that guard. *)
Definition response_data (error : jsexn) : jsval :=
  match error_response error with
  | Some r => data r
  | None => JUndef
  end.

Definition response_status (error : jsexn) : Z :=
  match error_response error with
  | Some r => status r
  | None => 0%Z
  end.

Definition message_body (m : string) : jsval := JObj [("message", JStr m)].

(** ** pharmacy-backend-function/index.js *)

Module Index.

Definition apiUrl (serviceKey Q0 Q1 DG : jsval) : string :=
  "http://apis.data.go.kr/B552657/ErmctInsttInfoInqireService/getParmacyList?ServiceKey="
    ++ to_string serviceKey ++ "&Q0=" ++ to_string Q0
    ++ "&Q1=" ++ to_string Q1 ++ "&DG=" ++ to_string DG
    ++ "&pageNo=1&numOfRows=10".

Definition maskedUrl (Q0 Q1 DG : jsval) : string :=
  "http://apis.data.go.kr/B552657/ErmctInsttInfoInqireService/getParmacyList?ServiceKey=***&Q0="
    ++ to_string Q0
    ++ "&Q1=" ++ to_string Q1 ++ "&DG=" ++ to_string DG
    ++ "&pageNo=1&numOfRows=10".

Definition parser_opts : parser_options :=
  {| explicitArray := false; ignoreAttrs := false |}.

(* lines 37-66 *)
Definition try_block (E : externals) (apiUrl : string)
    (serviceKey Q0 Q1 DG : jsval) : M unit :=
  masked <- template [Q0; Q1; DG] (maskedUrl Q0 Q1 DG) ;;
  log [Val (JStr "Constructed API URL (without key):");
       Val (JStr masked)] ;;
  log [Val (JStr "API Key length:");
       Val (if truthy serviceKey then length_of serviceKey
            else JStr "undefined")] ;;
  log [Val (JStr "Q0 (sido):"); Val Q0] ;;
  log [Val (JStr "Q1 (sigungu):"); Val Q1] ;;
  log [Val (JStr "DG (day):"); Val DG] ;;
  response <- await_get E apiUrl ;;
  let xmlData := data response in
  head <- call_substring E "xmlData" xmlData 0 500 ;;
  log [Val (JStr "Received XML data (first 500 chars):"); Val head] ;;
  jsonData <- await_parse E parser_opts xmlData ;;
  let items := items_item jsonData in
  if truthy items then
    let pharmacyList := if isArray items then items else JArr [items] in
    respond 200 pharmacyList
  else
    respond 200 (JArr []).

(* lines 68-85 *)
Definition catch_block (E : externals) (error : jsexn) : M unit :=
  log_error [Val (JStr "API 호출 또는 파싱 오류:"); Val (error_message error)] ;;
  if has_response_data error then
    try_catch
      (errorJson <- await_parse E parser_opts (response_data error) ;;
       let errorMessage :=
         js_or (header_resultMsg errorJson) (JStr "알 수 없는 API 응답 오류") in
       log_error [Val (JStr "Detailed API Error Response:");
                  Val errorMessage] ;;
       message <- template [errorMessage]
                    ("API 응답 오류: " ++ to_string errorMessage) ;;
       respond (response_status error) (message_body message))
      (fun parseError =>
         log_error [Val (JStr "Error parsing API error response:");
                    Val (error_message parseError)] ;;
         respond 500
           (message_body "데이터 처리 중 오류 발생: 잘못된 API 응답 형식"))
  else
    respond 500 (message_body "데이터를 불러오는 데 실패했습니다.").

Definition getPharmacyData (E : externals) (env : process_env)
    (req : request) : M unit :=
  let Q0 := get_prop (JObj (query req)) "Q0" in
  let Q1 := get_prop (JObj (query req)) "Q1" in
  let DG := get_prop (JObj (query req)) "DG" in
  let serviceKey := env_get env "PHARMACY_API_KEY" in
  if negb (truthy serviceKey) then
    log_error [Val (JStr "API Key is not set in environment variables.")] ;;
    respond 500 (message_body "서버 설정 오류: API 키가 누락되었습니다.")
  else if negb (truthy Q0) || negb (truthy Q1) || negb (truthy DG) then
    log_error [Val (JStr
      "Missing required query parameters: Q0 (sido), Q1 (sigungu), or DG (day).")] ;;
    respond 400
      (message_body "필수 검색 조건(시/도, 시/군/구, 요일)이 누락되었습니다.")
  else
    (* line 35, before the try *)
    apiUrl <- template [serviceKey; Q0; Q1; DG]
                (apiUrl serviceKey Q0 Q1 DG) ;;
    try_catch (try_block E apiUrl serviceKey Q0 Q1 DG) (catch_block E).

End Index.

(** ** The revision that fills in default parameters (first unnamed file) *)

Module Part000.

Definition baseUrl : string :=
  "http://apis.data.go.kr/B552657/ErmctInsttInfoInqireService/getParmacyListInfoInqire".

Definition apiUrl (serviceKey Q0 Q1 DG : jsval) : string :=
  let queryParams :=
    URLSearchParams_toString
      [("serviceKey", serviceKey); ("Q0", Q0); ("Q1", Q1); ("DG", DG)] in
  baseUrl ++ "?" ++ queryParams.

Definition parser_opts : parser_options :=
  {| explicitArray := false; ignoreAttrs := true |}.

(* lines 46-73 *)
Definition try_block (E : externals) (apiUrl : string) : M unit :=
  response <- await_get E apiUrl ;;
  let xmlData := data response in
  head <- call_substring E "xmlData" xmlData 0 500 ;;
  log [Val (JStr "Received XML data (first 500 chars):"); Val head] ;;
  jsonData <- await_parse E parser_opts xmlData ;;
  let items := items_item jsonData in
  let pharmacyList :=
    if truthy items then (if isArray items then items else JArr [items])
    else JArr [] in
  respond 200 pharmacyList.

(* lines 75-88 *)
Definition catch_block (error : jsexn) : M unit :=
  log_error [Val (JStr "API 호출 또는 파싱 오류:"); Val (error_message error)] ;;
  let errorDetail :=
    match error_response error with
    | Some r => data r
    | None => JStr "No response data from external API"
    end in
  respond 500
    (JObj [("message", JStr "데이터를 불러오는 데 실패했습니다.");
           ("error", error_message error);
           ("detail", errorDetail)]).

Definition getPharmacyData (E : externals) (env : process_env)
    (req : request) : M unit :=
  let serviceKey := env_get env "PHARMACY_API_KEY" in
  if negb (truthy serviceKey) then
    log_error [Val (JStr "API Key is not set in environment variables.")] ;;
    respond 500 (message_body "서버 설정 오류: API 키가 누락되었습니다.")
  else
    let Q0 := js_or (get_prop (JObj (query req)) "Q0") (JStr "서울특별시") in
    let Q1 := js_or (get_prop (JObj (query req)) "Q1") (JStr "강남구") in
    let DG := js_or (get_prop (JObj (query req)) "DG") (JStr "월") in
    (* lines 34-43, before the try *)
    apiUrl <- template [serviceKey; Q0; Q1; DG]
                (apiUrl serviceKey Q0 Q1 DG) ;;
    log [Val (JStr ("Calling API: " ++ apiUrl))] ;;
    try_catch (try_block E apiUrl) catch_block.

End Part000.

(** ** The revision that maps weekday labels (second unnamed file) *)

Module Part001.

Definition dayMap_entries : list (string * jsval) :=
  [("월", JStr "1"); ("화", JStr "2"); ("수", JStr "3");
   ("목", JStr "4"); ("금", JStr "5"); ("토", JStr "6");
   ("일", JStr "7"); ("공휴일", JStr "8")].

Definition dayMap : jsval := JObj dayMap_entries.

(* line 47: DG = dayMap[DG] || DG, once DG has given its property key *)
Definition convertDG (DG : jsval) : jsval :=
  js_or (get_prop dayMap (to_string DG)) DG.

Definition apiUrl (serviceKey Q0 Q1 DG : jsval) : string :=
  Index.apiUrl serviceKey Q0 Q1 DG.

Definition maskedUrl (Q0 Q1 DG : jsval) : string := Index.maskedUrl Q0 Q1 DG.

Definition parser_opts : parser_options :=
  {| explicitArray := false; ignoreAttrs := false |}.

(* lines 52-83 *)
Definition try_block (E : externals) (apiUrl : string)
    (serviceKey Q0 Q1 originalDG DG : jsval) : M unit :=
  log [Val (JStr "Original DG from request:"); Val originalDG] ;;
  log [Val (JStr "Converted DG for API call:"); Val DG] ;;
  masked <- template [Q0; Q1; DG] (maskedUrl Q0 Q1 DG) ;;
  log [Val (JStr "Constructed API URL (without key):");
       Val (JStr masked)] ;;
  log [Val (JStr "API Key length:");
       Val (if truthy serviceKey then length_of serviceKey
            else JStr "undefined")] ;;
  log [Val (JStr "Q0 (sido):"); Val Q0] ;;
  log [Val (JStr "Q1 (sigungu):"); Val Q1] ;;
  log [Val (JStr "DG (day):"); Val DG] ;;
  response <- await_get E apiUrl ;;
  let xmlData := data response in
  head <- call_substring E "xmlData" xmlData 0 500 ;;
  log [Val (JStr "Received XML data (first 500 chars):"); Val head] ;;
  jsonData <- await_parse E parser_opts xmlData ;;
  let items := items_item jsonData in
  if truthy items then
    let pharmacyList := if isArray items then items else JArr [items] in
    respond 200 pharmacyList
  else
    respond 200 (JArr []).

(* lines 85-109 *)
Definition catch_block (E : externals) (error : jsexn) : M unit :=
  log_error [Val (JStr "API 호출 또는 파싱 오류:"); Val (error_message error)] ;;
  log_error [Val (JStr "Full Error Object:"); Exn error] ;;
  if has_response_data error then
    try_catch
      (head <- call_substring E "error.response.data"
                 (response_data error) 0 500 ;;
       log_error [Val (JStr "Error Response XML:"); Val head] ;;
       errorJson <- await_parse E parser_opts (response_data error) ;;
       let errorMessage :=
         js_or (header_resultMsg errorJson) (JStr "알 수 없는 API 응답 오류") in
       log_error [Val (JStr "Detailed API Error Response:");
                  Val errorMessage] ;;
       message <- template [errorMessage]
                    ("API 응답 오류: " ++ to_string errorMessage) ;;
       respond (response_status error) (message_body message))
      (fun parseError =>
         log_error
           [Val (JStr "Error parsing API error response (likely non-XML):");
            Val (error_message parseError)] ;;
         head <- call_substring E "error.response.data"
                   (response_data error) 0 500 ;;
         log_error [Val (JStr "Raw error response data (first 500 chars):");
                    Val head] ;;
         respond 500
           (message_body
              "데이터 처리 중 오류 발생: 잘못된 API 응답 형식 또는 네트워크 문제"))
  else
    respond 500 (message_body "데이터를 불러오는 데 실패했습니다.").

Definition getPharmacyData (E : externals) (env : process_env)
    (req : request) : M unit :=
  let Q0 := get_prop (JObj (query req)) "Q0" in
  let Q1 := get_prop (JObj (query req)) "Q1" in
  let DG := get_prop (JObj (query req)) "DG" in
  let serviceKey := env_get env "PHARMACY_API_KEY" in
  if negb (truthy serviceKey) then
    log_error [Val (JStr "API Key is not set in environment variables.")] ;;
    respond 500 (message_body "서버 설정 오류: API 키가 누락되었습니다.")
  else if negb (truthy Q0) || negb (truthy Q1) || negb (truthy DG) then
    log_error [Val (JStr
      "Missing required query parameters: Q0 (sido), Q1 (sigungu), or DG (day).")] ;;
    respond 400
      (message_body "필수 검색 조건(시/도, 시/군/구, 요일)이 누락되었습니다.")
  else
    let originalDG := DG in
    (* line 47: the lookup converts DG to a property key *)
    ToString DG ;;
    let DG := convertDG DG in
    (* line 50, before the try *)
    apiUrl <- template [serviceKey; Q0; Q1; DG]
                (apiUrl serviceKey Q0 Q1 DG) ;;
    try_catch (try_block E apiUrl serviceKey Q0 Q1 originalDG DG)
      (catch_block E).

End Part001.

(** ** Observing a run *)

Definition trace {A : Type} (m : M A) : list event := fst m.

(** The exception that escapes the handler, if one does. *)
Definition unhandled {A : Type} (m : M A) : option jsexn :=
  match snd m with
  | inl e => Some e
  | inr _ => None
  end.

(** The responses sent, the URLs requested and the console lines written,
    each in program order. *)
Fixpoint responses (t : list event) : list (Z * jsval) :=
  match t with
  | [] => []
  | res_status_json code body :: r => (code, body) :: responses r
  | _ :: r => responses r
  end.

Fixpoint outbound (t : list event) : list string :=
  match t with
  | [] => []
  | get_request url :: r => url :: outbound r
  | _ :: r => outbound r
  end.

Fixpoint console (t : list event) : list (list logged) :=
  match t with
  | [] => []
  | console_log args :: r | console_error args :: r => args :: console r
  | _ :: r => console r
  end.

(** [needle] occurs in [hay]. *)
Fixpoint occurs_in (needle hay : string) : bool :=
  String.prefix needle hay
  || match hay with
     | EmptyString => false
     | String _ r => occurs_in needle r
     end.

(** ** The three revisions side by side *)

Inductive revision : Type := index_js | part_000 | part_001.

Definition handler (r : revision)
  : externals -> process_env -> request -> M unit :=
  match r with
  | index_js => Index.getPharmacyData
  | part_000 => Part000.getPharmacyData
  | part_001 => Part001.getPharmacyData
  end.

Definition parser_opts (r : revision) : parser_options :=
  match r with
  | index_js => Index.parser_opts
  | part_000 => Part000.parser_opts
  | part_001 => Part001.parser_opts
  end.

Definition serviceKey (env : process_env) : jsval :=
  env_get env "PHARMACY_API_KEY".

Definition param (req : request) (name : string) : jsval :=
  get_prop (JObj (query req)) name.

(** The revisions that reject a request with a missing parameter. *)
Definition validates (r : revision) : bool :=
  match r with
  | part_000 => false
  | index_js | part_001 => true
  end.

Definition params_given (req : request) : bool :=
  truthy (param req "Q0") && truthy (param req "Q1")
  && truthy (param req "DG").

(** The values the revision turns into text on its way to the upstream
    call all convert. *)
Definition values_convert (r : revision) (req : request) : bool :=
  match r with
  | index_js =>
      converts (param req "Q0") && converts (param req "Q1")
      && converts (param req "DG")
  | part_000 =>
      converts (js_or (param req "Q0") (JStr "서울특별시"))
      && converts (js_or (param req "Q1") (JStr "강남구"))
      && converts (js_or (param req "DG") (JStr "월"))
  | part_001 =>
      converts (param req "DG") && converts (param req "Q0")
      && converts (param req "Q1")
  end.

(** The request passes the revision's checks. *)
Definition passes_checks (r : revision) (env : process_env) (req : request)
  : bool :=
  truthy (serviceKey env) && (negb (validates r) || params_given req).

(** The request gets as far as the upstream call. *)
Definition proceeds (r : revision) (env : process_env) (req : request)
  : bool :=
  passes_checks r env req && values_convert r req.

(** The URL the revision hands to [axios.get]. *)
Definition outbound_url (r : revision) (env : process_env) (req : request)
  : string :=
  match r with
  | index_js =>
      Index.apiUrl (serviceKey env)
        (param req "Q0") (param req "Q1") (param req "DG")
  | part_000 =>
      Part000.apiUrl (serviceKey env)
        (js_or (param req "Q0") (JStr "서울특별시"))
        (js_or (param req "Q1") (JStr "강남구"))
        (js_or (param req "DG") (JStr "월"))
  | part_001 =>
      Part001.apiUrl (serviceKey env)
        (param req "Q0") (param req "Q1")
        (Part001.convertDG (param req "DG"))
  end.

(** The array the normalizer builds from the extracted [item] value. *)
Definition pharmacyList (items : jsval) : jsval :=
  if truthy items then (if isArray items then items else JArr [items])
  else JArr [].

Definition config_error : jsval :=
  message_body "서버 설정 오류: API 키가 누락되었습니다.".

Definition input_error : jsval :=
  message_body "필수 검색 조건(시/도, 시/군/구, 요일)이 누락되었습니다.".

(** The revisions that translate an upstream error body. *)
Definition translates_errors (r : revision) : bool :=
  match r with
  | part_000 => false
  | index_js | part_001 => true
  end.

Definition malformed_error (r : revision) : jsval :=
  match r with
  | part_001 =>
      message_body
        "데이터 처리 중 오류 발생: 잘못된 API 응답 형식 또는 네트워크 문제"
  | _ => message_body "데이터 처리 중 오류 발생: 잘못된 API 응답 형식"
  end.

Definition is_string (v : jsval) : bool :=
  match v with JStr _ => true | _ => false end.

(** The extracted path holds something. *)
Definition present (v : jsval) : bool :=
  match v with JUndef => false | _ => true end.

(** The run answered with one 400-class response and called nobody. *)
Definition client_error_without_call (run : M unit) : Prop :=
  exists code body,
    responses (trace run) = [(code, body)]
    /\ (400 <= code < 500)%Z
    /\ outbound (trace run) = [].

(** The run answered with status [st] and a [message] field equal to
    [msg]. *)
Definition answers_with_message (run : M unit) (st : Z) (msg : string)
  : Prop :=
  exists body,
    responses (trace run) = [(st, body)]
    /\ get_prop body "message" = JStr msg.

(** ** A sample platform for the worked instances *)

(** Upstream documents and the trees xml2js makes of them without explicit
    arrays: an element with children is an object, repeated children are an
    array, an empty element is the empty string. *)
Definition sample_xml (items : string) : string :=
  "<response><header><resultCode>00</resultCode><resultMsg>NORMAL SERVICE.</resultMsg></header><body>"
    ++ items ++ "</body></response>".

Definition sample_tree (items : jsval) : jsval :=
  JObj [("response",
         JObj [("header", JObj [("resultCode", JStr "00");
                                ("resultMsg", JStr "NORMAL SERVICE.")]);
               ("body", JObj [("items", items)])])].

Definition sample_record (name : string) : jsval :=
  JObj [("dutyName", JStr name)].

Definition xml_no_items : string := sample_xml "<items/>".
Definition tree_no_items : jsval := sample_tree (JStr EmptyString).

Definition xml_empty_item : string := sample_xml "<items><item/></items>".
Definition tree_empty_item : jsval :=
  sample_tree (JObj [("item", JStr EmptyString)]).

Definition xml_one_item : string :=
  sample_xml "<items><item><dutyName>A</dutyName></item></items>".
Definition tree_one_item : jsval :=
  sample_tree (JObj [("item", sample_record "A")]).

Definition xml_two_items : string :=
  sample_xml
    "<items><item><dutyName>A</dutyName></item><item><dutyName>B</dutyName></item></items>".
Definition tree_two_items : jsval :=
  sample_tree (JObj [("item", JArr [sample_record "A"; sample_record "B"])]).

Definition sample_limit : string :=
  "LIMITED NUMBER OF SERVICE REQUESTS EXCEEDS ERROR.".

Definition xml_error : string :=
  "<response><header><resultCode>22</resultCode><resultMsg>"
    ++ sample_limit ++ "</resultMsg></header></response>".
Definition tree_error : jsval :=
  JObj [("response",
         JObj [("header", JObj [("resultCode", JStr "22");
                                ("resultMsg", JStr sample_limit)])])].

(** A parser that knows the sample documents and rejects anything else. *)
Definition sample_parse (x : jsval) : string + jsval :=
  match assoc (to_string x)
          [(xml_no_items, tree_no_items); (xml_empty_item, tree_empty_item);
           (xml_one_item, tree_one_item); (xml_two_items, tree_two_items);
           (xml_error, tree_error)] with
  | Some tree => inr tree
  | None => inl "Non-whitespace before first tag."
  end.

(** A platform whose upstream always gives [answer]. *)
Definition sample_platform (answer : axios_result) : externals :=
  {| parseStringPromise := fun _ x => sample_parse x;
     axios_get := fun _ => answer;
     substring := fun s _ _ => s |}.

(** An upstream that answers 200 with the document [xml]. *)
Definition sample_success (xml : string) : externals :=
  sample_platform (Resolved {| status := 200; data := JStr xml |}).

(** An upstream that fails with status 503 and the body [body]. *)
Definition sample_failure (body : jsval) : externals :=
  sample_platform
    (Rejected "Request failed with status code 503"
       (Some {| status := 503; data := body |})).

Definition sample_env : process_env := [("PHARMACY_API_KEY", "secret")].

Definition sample_request (DG : string) : request :=
  {| query := [("Q0", JStr "서울특별시"); ("Q1", JStr "강남구");
               ("DG", JStr DG)] |}.

Definition empty_request : request := {| query := [] |}.

(** The request [?Q0[toString]=x&Q1=강남구&DG=월]: Q0 arrives as an object
    that owns a [toString] which is no function. *)
Definition request_with_object_Q0 : request :=
  {| query := [("Q0", JObj [("toString", JStr "x")]);
               ("Q1", JStr "강남구"); ("DG", JStr "월")] |}.

(** ** Vocabulary for the further properties *)

Definition generic_error : jsval :=
  message_body "데이터를 불러오는 데 실패했습니다.".

(** The answer is a failure whose body is truthy and not a string. *)
Definition error_body_unreadable (a : axios_result) : bool :=
  match a with
  | Rejected _ (Some r) => truthy (data r) && negb (is_string (data r))
  | _ => false
  end.

(** The answer is a failure that brings no body the handler would look
    at: no response, or a response whose body is falsy. *)
Definition error_without_body (a : axios_result) : bool :=
  match a with
  | Rejected _ None => true
  | Rejected _ (Some r) => negb (truthy (data r))
  | Resolved _ => false
  end.

(** The request passes the checks, but one of the values to be turned
    into text does not convert. *)
Definition conversion_fails (r : revision) (env : process_env)
    (req : request) : bool :=
  passes_checks r env req && negb (values_convert r req).

(** The last event of a trace. *)
Fixpoint final_event (t : list event) : option event :=
  match t with
  | [] => None
  | [e] => Some e
  | _ :: r => final_event r
  end.

(** The characters a form-encoded value is made of. *)
Definition query_char (c : ascii) : bool :=
  form_safe c || (nat_of_ascii c =? 43) || (nat_of_ascii c =? 37).

(** An environment that holds the credential [key] and nothing else. *)
Definition env_with_key (key : string) : process_env :=
  [("PHARMACY_API_KEY", key)].

(** The error document the open-data gateway itself sends: it has no
    [response] element. *)
Definition xml_gateway_error : string :=
  "<OpenAPI_ServiceResponse><cmmMsgHeader><errMsg>SERVICE ERROR</errMsg><returnAuthMsg>SERVICE_KEY_IS_NOT_REGISTERED_ERROR</returnAuthMsg><returnReasonCode>30</returnReasonCode></cmmMsgHeader></OpenAPI_ServiceResponse>".

Definition tree_gateway_error : jsval :=
  JObj [("OpenAPI_ServiceResponse",
         JObj [("cmmMsgHeader",
                JObj [("errMsg", JStr "SERVICE ERROR");
                      ("returnAuthMsg",
                       JStr "SERVICE_KEY_IS_NOT_REGISTERED_ERROR");
                      ("returnReasonCode", JStr "30")])])].

(** A platform whose upstream fails with status 401 and the gateway's
    document, which the parser reads. *)
Definition gateway_failure : externals :=
  {| parseStringPromise :=
       fun _ x =>
         if String.eqb (to_string x) xml_gateway_error
         then inr tree_gateway_error
         else inl "Non-whitespace before first tag.";
     axios_get :=
       fun _ =>
         Rejected "Request failed with status code 401"
           (Some {| status := 401; data := JStr xml_gateway_error |});
     substring := fun s _ _ => s |}.

(** ** How each revision runs *)

Section Runs.

Variable E : externals.
Variable env : process_env.
Variable req : request.

Lemma params_given_true :
  params_given req = true ->
  truthy (param req "Q0") = true /\ truthy (param req "Q1") = true
  /\ truthy (param req "DG") = true.
Proof.
  unfold params_given. intros H.
  apply andb_true_iff in H as [H HDG].
  apply andb_true_iff in H as [HQ0 HQ1]. auto.
Qed.

Lemma proceeds_key (r : revision) :
  proceeds r env req = true -> truthy (serviceKey env) = true.
Proof.
  unfold proceeds, passes_checks. intros H.
  apply andb_true_iff in H as [H _]. apply andb_true_iff in H. tauto.
Qed.

Lemma proceeds_params (r : revision) :
  proceeds r env req = true -> validates r = true ->
  params_given req = true.
Proof.
  unfold proceeds, passes_checks. intros H Hv. rewrite Hv in H.
  apply andb_true_iff in H as [H _].
  apply andb_true_iff in H. simpl in H. tauto.
Qed.

Lemma proceeds_converts (r : revision) :
  proceeds r env req = true -> values_convert r req = true.
Proof.
  unfold proceeds. intros H. apply andb_true_iff in H. tauto.
Qed.

(** The credential, read from the environment, is a string or undefined:
    it always converts. *)
Lemma serviceKey_converts : converts (serviceKey env) = true.
Proof.
  unfold serviceKey, env_get.
  destruct (assoc "PHARMACY_API_KEY" env); reflexivity.
Qed.

(** What the table can give back. *)
Lemma dayMap_lookup (k : string) (c : jsval) :
  assoc k Part001.dayMap_entries = Some c ->
  In c [JStr "1"; JStr "2"; JStr "3"; JStr "4"; JStr "5"; JStr "6";
        JStr "7"; JStr "8"].
Proof.
  unfold Part001.dayMap_entries, assoc.
  repeat (destruct (String.eqb k _);
          [intros H; inversion H; simpl; tauto | ]).
  discriminate.
Qed.

(** What a plain object can inherit under a name. *)
Lemma object_prototype_values (k : string) :
  object_prototype k = JUndef \/ object_prototype k = JObj []
  \/ exists name, object_prototype k = JFun name.
Proof.
  unfold object_prototype.
  destruct (String.eqb k "constructor"); [eauto | ].
  destruct (String.eqb k "__proto__"); [eauto | ].
  destruct (existsb _ _); eauto.
Qed.

(** Whatever the weekday lookup returns converts, once the weekday has. *)
Lemma convertDG_converts (DG : jsval) :
  converts DG = true -> converts (Part001.convertDG DG) = true.
Proof.
  intros HDG. unfold Part001.convertDG, Part001.dayMap, get_prop.
  destruct (assoc (to_string DG) Part001.dayMap_entries) as [c | ] eqn:Hown.
  - apply dayMap_lookup in Hown. simpl in Hown.
    repeat (destruct Hown as [Hown | Hown]; [subst c; reflexivity | ]).
    destruct Hown.
  - destruct (object_prototype_values (to_string DG))
      as [Hp | [Hp | [name Hp]]]; rewrite Hp; [exact HDG | | ]; reflexivity.
Qed.

(** Without a credential every revision logs one line and answers 500. *)
Lemma run_without_key (r : revision) :
  truthy (serviceKey env) = false ->
  handler r E env req =
    ([console_error
        [Val (JStr "API Key is not set in environment variables.")];
      res_status_json 500 config_error], inr tt).
Proof.
  intros H.
  destruct r; unfold handler, Index.getPharmacyData,
    Part000.getPharmacyData, Part001.getPharmacyData;
    fold (serviceKey env); rewrite H; reflexivity.
Qed.

(** With a credential, a validating revision stops at a missing
    parameter. *)
Lemma run_missing_param (r : revision) :
  validates r = true ->
  truthy (serviceKey env) = true ->
  params_given req = false ->
  handler r E env req =
    ([console_error
        [Val (JStr
           "Missing required query parameters: Q0 (sido), Q1 (sigungu), or DG (day).")];
      res_status_json 400 input_error], inr tt).
Proof.
  intros Hv Hk Hp.
  assert (Hc : negb (truthy (param req "Q0"))
               || negb (truthy (param req "Q1"))
               || negb (truthy (param req "DG")) = true).
  { unfold params_given in Hp.
    destruct (truthy (param req "Q0")), (truthy (param req "Q1")),
      (truthy (param req "DG")); simpl in *; congruence. }
  destruct r; try discriminate Hv;
    unfold handler, Index.getPharmacyData, Part001.getPharmacyData;
    fold (serviceKey env); fold (param req "Q0"); fold (param req "Q1");
    fold (param req "DG"); rewrite Hk; simpl negb; cbv iota;
    rewrite Hc; reflexivity.
Qed.

End Runs.

Arguments Index.apiUrl : simpl never.
Arguments Index.maskedUrl : simpl never.
Arguments Part000.apiUrl : simpl never.
Arguments Part001.convertDG : simpl never.
Arguments String.append : simpl never.
Arguments to_string : simpl never.
Arguments items_item : simpl never.
Arguments header_resultMsg : simpl never.
Arguments truthy : simpl never.
Arguments js_or : simpl never.
Arguments length_of : simpl never.
Arguments converts : simpl never.

(** Step into the branch of the handler that reaches the upstream call. *)
Ltac use_facts :=
  repeat match goal with
         | H : truthy _ = true |- _ => rewrite H
         | H : converts _ = true |- _ => rewrite H
         end.

Ltac open_handler env req :=
  unfold handler, Index.getPharmacyData, Part000.getPharmacyData,
    Part001.getPharmacyData;
  fold (serviceKey env); fold (param req "Q0"); fold (param req "Q1");
  fold (param req "DG");
  use_facts;
  simpl negb; simpl orb; cbv iota;
  unfold Index.try_block, Index.catch_block, Part000.try_block,
    Part000.catch_block, Part001.try_block, Part001.catch_block,
    await_get, await_parse, outbound_url, has_response_data, response_data,
    response_status, parser_opts, template, ToString;
  cbn [forallb]; use_facts; cbn [andb]; simpl.

(** The facts a proceeding request brings: the credential and the values
    are truthy and convert. *)
Ltac conversions env req Hp :=
  pose proof (proceeds_key env req _ Hp);
  pose proof (serviceKey_converts env);
  let Hv := fresh "Hv" in
  pose proof (proceeds_converts env req _ Hp) as Hv;
  unfold values_convert in Hv;
  apply andb_true_iff in Hv as [Hv ?];
  apply andb_true_iff in Hv as [? ?].

Ltac enter_validated env req Hp :=
  conversions env req Hp;
  destruct (params_given_true req (proceeds_params env req _ Hp eq_refl))
    as (? & ? & ?);
  try match goal with
      | H : converts (param req "DG") = true |- _ =>
          pose proof (convertDG_converts _ H)
      end;
  open_handler env req.

Ltac enter r env req Hp :=
  destruct r;
  [ enter_validated env req Hp
  | conversions env req Hp; open_handler env req
  | enter_validated env req Hp ].

(** Split on whatever the platform may answer next. *)
Ltac answer :=
  match goal with
  | |- context [axios_get ?E ?u] =>
      destruct (axios_get E u) as [[? [ | | | | | | | ]]|? [[? ?]|]]
  | |- context [parseStringPromise ?E ?o ?x] =>
      destruct (parseStringPromise E o x)
  | |- context [truthy ?v] => destruct (truthy v)
  | |- context [call_substring _ _ ?d _ _] => is_var d; destruct d
  | |- context [converts ?v] => destruct (converts v)
  end.

Section Calls.

Variable E : externals.
Variable env : process_env.
Variable req : request.

(** A request that passes the checks costs exactly one upstream call,
    whatever the upstream and the parser then do. *)
Lemma outbound_once (r : revision) :
  proceeds r env req = true ->
  outbound (trace (handler r E env req)) = [outbound_url r env req].
Proof.
  intros Hp. enter r env req Hp; repeat (simpl; try answer); reflexivity.
Qed.

(** The successful path: the body of the 200 is the normalized list. *)
Lemma run_success (r : revision) (st : Z) (xml : string) (tree : jsval) :
  proceeds r env req = true ->
  axios_get E (outbound_url r env req)
    = Resolved {| status := st; data := JStr xml |} ->
  parseStringPromise E (parser_opts r) (JStr xml) = inr tree ->
  responses (trace (handler r E env req))
    = [(200%Z, pharmacyList (items_item tree))]
  /\ unhandled (handler r E env req) = None.
Proof.
  intros Hp Hget Hparse.
  enter r env req Hp; unfold outbound_url, parser_opts in Hget, Hparse;
    rewrite Hget; simpl; rewrite Hparse; simpl; unfold pharmacyList;
    destruct (truthy (items_item tree)); simpl; auto.
Qed.

End Calls.

Section Failures.

Variable E : externals.
Variable env : process_env.
Variable req : request.

(** An error body that parses is answered with the upstream's status and
    the prefixed result message (or the stand-in text when the tree holds
    none), provided the message converts to text. *)
Lemma run_error_parsed (r : revision) (m body : string) (st : Z)
    (tree : jsval) :
  translates_errors r = true ->
  proceeds r env req = true ->
  axios_get E (outbound_url r env req)
    = Rejected m (Some {| status := st; data := JStr body |}) ->
  truthy (JStr body) = true ->
  parseStringPromise E (parser_opts r) (JStr body) = inr tree ->
  converts (js_or (header_resultMsg tree) (JStr "알 수 없는 API 응답 오류"))
    = true ->
  responses (trace (handler r E env req))
    = [(st, message_body
              ("API 응답 오류: "
                 ++ to_string (js_or (header_resultMsg tree)
                                 (JStr "알 수 없는 API 응답 오류"))))]
  /\ unhandled (handler r E env req) = None.
Proof.
  intros Ht Hp Hget Hbody Hparse Hconv.
  enter r env req Hp; try discriminate Ht;
    unfold outbound_url, parser_opts in Hget, Hparse;
    rewrite Hget; simpl; rewrite Hbody; simpl; rewrite Hparse; simpl;
    rewrite Hconv; simpl; auto.
Qed.

(** A string body that the parser rejects is answered 500 by both
    translating revisions. *)
Lemma run_error_unparsed (r : revision) (m body pm : string) (st : Z) :
  translates_errors r = true ->
  proceeds r env req = true ->
  axios_get E (outbound_url r env req)
    = Rejected m (Some {| status := st; data := JStr body |}) ->
  truthy (JStr body) = true ->
  parseStringPromise E (parser_opts r) (JStr body) = inl pm ->
  responses (trace (handler r E env req)) = [(500%Z, malformed_error r)]
  /\ unhandled (handler r E env req) = None.
Proof.
  intros Ht Hp Hget Hbody Hparse.
  enter r env req Hp; try discriminate Ht;
    unfold outbound_url, parser_opts in Hget, Hparse;
    rewrite Hget; simpl; rewrite Hbody; simpl; rewrite Hparse; simpl; auto.
Qed.

(** index.js gives the same answer whatever kind of value the body is. *)
Lemma index_js_error_unparsed (m pm : string) (st : Z) (d : jsval) :
  proceeds index_js env req = true ->
  axios_get E (outbound_url index_js env req)
    = Rejected m (Some {| status := st; data := d |}) ->
  truthy d = true ->
  parseStringPromise E (parser_opts index_js) d = inl pm ->
  responses (trace (handler index_js E env req))
    = [(500%Z, malformed_error index_js)]
  /\ unhandled (handler index_js E env req) = None.
Proof.
  intros Hp Hget Hd Hparse.
  enter_validated env req Hp;
    unfold outbound_url, parser_opts in Hget, Hparse;
    rewrite Hget; simpl; rewrite Hd; simpl; rewrite Hparse; simpl; auto.
Qed.

(** The weekday-mapping revision calls [substring] on the error body in
    the [try] and again in its [catch]: a body that is not a string makes
    both throw, and the second TypeError leaves the handler. *)
Lemma part_001_error_body_not_string (m : string) (st : Z) (d : jsval) :
  proceeds part_001 env req = true ->
  axios_get E (outbound_url part_001 env req)
    = Rejected m (Some {| status := st; data := d |}) ->
  truthy d = true ->
  is_string d = false ->
  responses (trace (handler part_001 E env req)) = []
  /\ unhandled (handler part_001 E env req)
     = Some (TypeError "error.response.data.substring is not a function").
Proof.
  intros Hp Hget Hd Hs.
  enter_validated env req Hp; unfold outbound_url in Hget;
    rewrite Hget; simpl; rewrite Hd; simpl.
  destruct d; try discriminate Hs; try discriminate Hd; simpl; auto.
Qed.

(** The default-filling revision answers every failure the same way. *)
Lemma part_000_error (m : string) (resp : option axios_response) :
  proceeds part_000 env req = true ->
  axios_get E (outbound_url part_000 env req) = Rejected m resp ->
  responses (trace (handler part_000 E env req))
    = [(500%Z,
        JObj [("message", JStr "데이터를 불러오는 데 실패했습니다.");
              ("error", JStr m);
              ("detail",
               match resp with
               | Some r => data r
               | None => JStr "No response data from external API"
               end)])]
  /\ unhandled (handler part_000 E env req) = None.
Proof.
  intros Hp Hget.
  conversions env req Hp.
  open_handler env req; unfold outbound_url in Hget;
    rewrite Hget; simpl; auto.
Qed.

End Failures.

(** ** Weekday mapping *)

(** Every label of the table is replaced by its code. *)
Lemma known_label_is_mapped (label : string) (code : jsval) :
  In (label, code) Part001.dayMap_entries ->
  Part001.convertDG (JStr label) = code.
Proof.
  unfold Part001.dayMap_entries. intros H.
  repeat (destruct H as [H | H]; [inversion H; reflexivity | ]).
  destruct H.
Qed.

(** A string that is neither a label nor a name every object inherits is
    left as it came. *)
Lemma unknown_label_passes (s : string) :
  assoc s Part001.dayMap_entries = None ->
  object_prototype s = JUndef ->
  Part001.convertDG (JStr s) = JStr s.
Proof.
  intros Hown Hproto.
  unfold Part001.convertDG, Part001.dayMap, get_prop.
  change (to_string (JStr s)) with s.
  rewrite Hown, Hproto. reflexivity.
Qed.

(** A name that is no label but that every object inherits is replaced by
    the inherited value. *)
Lemma inherited_name_is_replaced (s : string) :
  assoc s Part001.dayMap_entries = None ->
  truthy (object_prototype s) = true ->
  Part001.convertDG (JStr s) = object_prototype s.
Proof.
  intros Hown Hproto.
  unfold Part001.convertDG, Part001.dayMap, get_prop.
  change (to_string (JStr s)) with s.
  rewrite Hown. unfold js_or. rewrite Hproto. reflexivity.
Qed.

(** ** What the console sees of the credential *)

(** In index.js two credentials of the same length, answered alike by the
    upstream, leave the same console lines and the same responses. *)
Lemma index_js_console_hides_credential (E : externals) (req : request)
    (k1 k2 : string) :
  js_length k1 = js_length k2 ->
  truthy (JStr k1) = true ->
  truthy (JStr k2) = true ->
  axios_get E (outbound_url index_js [("PHARMACY_API_KEY", k1)] req)
    = axios_get E (outbound_url index_js [("PHARMACY_API_KEY", k2)] req) ->
  console (trace (handler index_js E [("PHARMACY_API_KEY", k1)] req))
    = console (trace (handler index_js E [("PHARMACY_API_KEY", k2)] req))
  /\ responses (trace (handler index_js E [("PHARMACY_API_KEY", k1)] req))
     = responses (trace (handler index_js E [("PHARMACY_API_KEY", k2)] req)).
Proof.
  intros Hlen H1 H2 Hget.
  unfold handler, Index.getPharmacyData.
  change (env_get [("PHARMACY_API_KEY", k1)] "PHARMACY_API_KEY")
    with (JStr k1).
  change (env_get [("PHARMACY_API_KEY", k2)] "PHARMACY_API_KEY")
    with (JStr k2).
  fold (param req "Q0"); fold (param req "Q1"); fold (param req "DG").
  rewrite H1, H2. simpl negb. cbv iota.
  destruct (negb (truthy (param req "Q0")) || negb (truthy (param req "Q1"))
            || negb (truthy (param req "DG"))); [split; reflexivity | ].
  unfold Index.try_block, Index.catch_block, await_get, await_parse,
    has_response_data, response_data, response_status, template.
  cbn [forallb].
  change (converts (JStr k1)) with true.
  change (converts (JStr k2)) with true.
  destruct (converts (param req "Q0")), (converts (param req "Q1")),
    (converts (param req "DG")); try (split; reflexivity).
  simpl.
  unfold outbound_url in Hget.
  change (serviceKey [("PHARMACY_API_KEY", k1)]) with (JStr k1) in Hget.
  change (serviceKey [("PHARMACY_API_KEY", k2)]) with (JStr k2) in Hget.
  rewrite Hget, H1, H2.
  change (length_of (JStr k1)) with (JNum (Z.of_nat (js_length k1))).
  change (length_of (JStr k2)) with (JNum (Z.of_nat (js_length k2))).
  rewrite Hlen.
  repeat (simpl; try answer); split; reflexivity.
Qed.

(** Characters the form encoding leaves alone. *)
Lemma urlencode_safe (s : string) :
  forallb form_safe (list_ascii_of_string s) = true -> urlencode s = s.
Proof.
  induction s as [ | c s IH]; simpl; intros H; [reflexivity | ].
  apply andb_true_iff in H as [Hc Hs].
  rewrite Hc, (IH Hs). reflexivity.
Qed.

(** A credential of letters, digits and [*-._] stands in the URL of the
    default-filling revision exactly as it is. *)
Lemma part_000_url_shows_plain_key (key : string) (Q0 Q1 DG : jsval) :
  forallb form_safe (list_ascii_of_string key) = true ->
  Part000.apiUrl (JStr key) Q0 Q1 DG
    = Part000.baseUrl ++ "?" ++ "serviceKey" ++ "=" ++ key ++ "&"
        ++ URLSearchParams_toString [("Q0", Q0); ("Q1", Q1); ("DG", DG)].
Proof.
  intros Hsafe. unfold Part000.apiUrl.
  change (URLSearchParams_toString
            [("serviceKey", JStr key); ("Q0", Q0); ("Q1", Q1); ("DG", DG)])
    with (urlencode "serviceKey" ++ "=" ++ urlencode key ++ "&"
            ++ URLSearchParams_toString [("Q0", Q0); ("Q1", Q1); ("DG", DG)]).
  rewrite (urlencode_safe key Hsafe). reflexivity.
Qed.

(** On a failed upstream call the weekday-mapping revision writes the
    caught error object to the console, and with it the URL that was
    requested. *)
Lemma part_001_logs_error_object (E : externals) (env : process_env)
    (req : request) (m : string) (resp : option axios_response) :
  proceeds part_001 env req = true ->
  axios_get E (outbound_url part_001 env req) = Rejected m resp ->
  In [Val (JStr "Full Error Object:");
      Exn (AxiosError m (outbound_url part_001 env req) resp)]
     (console (trace (handler part_001 E env req))).
Proof.
  intros Hp Hget.
  enter_validated env req Hp; unfold outbound_url in Hget; rewrite Hget.
  destruct resp as [[st d] | ];
    repeat (simpl; try answer); simpl; tauto.
Qed.

(** The default-filling revision writes the whole request URL to the
    console before anything else. *)
Lemma part_000_logs_url (E : externals) (env : process_env) (req : request) :
  proceeds part_000 env req = true ->
  exists rest,
    console (trace (handler part_000 E env req))
      = [Val (JStr ("Calling API: " ++ outbound_url part_000 env req))]
          :: rest.
Proof.
  intros Hp. conversions env req Hp. open_handler env req.
  repeat (simpl; try answer); eexists; reflexivity.
Qed.

(** ** The claims *)

(** C1.  After a successful upstream call whose parsed tree holds something
    at [response.body.items.item], the response is a 200 whose body is an
    array: a single node that is not an array comes back as the one-element
    array of that node, and an array comes back as it is, element for
    element. *)
Theorem normalizer_returns_array (r : revision) (E : externals)
    (env : process_env) (req : request) (st : Z) (xml : string)
    (tree : jsval) :
  proceeds r env req = true ->
  axios_get E (outbound_url r env req)
    = Resolved {| status := st; data := JStr xml |} ->
  parseStringPromise E (parser_opts r) (JStr xml) = inr tree ->
  present (items_item tree) = true ->
  exists body,
    responses (trace (handler r E env req)) = [(200%Z, body)]
    /\ unhandled (handler r E env req) = None
    /\ isArray body = true
    /\ (forall props, items_item tree = JObj props ->
        body = JArr [JObj props])
    /\ (truthy (items_item tree) = true ->
        isArray (items_item tree) = false ->
        body = JArr [items_item tree])
    /\ (forall elems, items_item tree = JArr elems -> body = JArr elems).
Proof.
  intros Hp Hget Hparse _.
  destruct (run_success E env req r st xml tree Hp Hget Hparse) as [Hr Hu].
  exists (pharmacyList (items_item tree)).
  repeat split; auto.
  - unfold pharmacyList.
    destruct (truthy (items_item tree)); [ | reflexivity].
    destruct (items_item tree); reflexivity.
  - intros props Hi. rewrite Hi. reflexivity.
  - intros Ht Ha. unfold pharmacyList. rewrite Ht, Ha. reflexivity.
  - intros elems Hi. rewrite Hi. reflexivity.
Qed.

Lemma normalizer_returns_array_witness :
  exists body,
    responses
      (trace (handler index_js (sample_success xml_one_item) sample_env
                (sample_request "1")))
      = [(200%Z, body)]
    /\ body = JArr [sample_record "A"].
Proof.
  destruct (normalizer_returns_array index_js (sample_success xml_one_item)
              sample_env (sample_request "1") 200 xml_one_item tree_one_item
              eq_refl eq_refl eq_refl eq_refl)
    as (body & Hr & _ & _ & Hone & _).
  exists body. split; [exact Hr | exact (Hone _ eq_refl)].
Defined.

(** Two records come back as the two-element array, in the upstream's
    order, from each revision. *)
Example two_records_in_order (r : revision) :
  responses
    (trace (handler r (sample_success xml_two_items) sample_env
              (sample_request "1")))
    = [(200%Z, JArr [sample_record "A"; sample_record "B"])].
Proof.
  destruct r; reflexivity.
Qed.

(** C2.  After a successful upstream call whose parsed tree has nothing at
    [response.body.items.item], the response is a 200 with the empty
    array. *)
Theorem absent_item_gives_empty_array (r : revision) (E : externals)
    (env : process_env) (req : request) (st : Z) (xml : string)
    (tree : jsval) :
  proceeds r env req = true ->
  axios_get E (outbound_url r env req)
    = Resolved {| status := st; data := JStr xml |} ->
  parseStringPromise E (parser_opts r) (JStr xml) = inr tree ->
  items_item tree = JUndef ->
  responses (trace (handler r E env req)) = [(200%Z, JArr [])]
  /\ unhandled (handler r E env req) = None.
Proof.
  intros Hp Hget Hparse Habsent.
  destruct (run_success E env req r st xml tree Hp Hget Hparse) as [Hr Hu].
  rewrite Hr, Habsent. auto.
Qed.

Lemma absent_item_gives_empty_array_witness :
  responses
    (trace (handler index_js (sample_success xml_no_items) sample_env
              (sample_request "1")))
    = [(200%Z, JArr [])]
  /\ unhandled (handler index_js (sample_success xml_no_items) sample_env
                  (sample_request "1")) = None.
Proof.
  exact (absent_item_gives_empty_array index_js (sample_success xml_no_items)
           sample_env (sample_request "1") 200 xml_no_items tree_no_items
           eq_refl eq_refl eq_refl eq_refl).
Defined.

(** C10.  When the value at [response.body.items.item] is there but falsy,
    such as the empty string of an empty element, the response is a 200 with
    the empty array, not an array holding that value. *)
Theorem falsy_item_gives_empty_array (r : revision) (E : externals)
    (env : process_env) (req : request) (st : Z) (xml : string)
    (tree : jsval) :
  proceeds r env req = true ->
  axios_get E (outbound_url r env req)
    = Resolved {| status := st; data := JStr xml |} ->
  parseStringPromise E (parser_opts r) (JStr xml) = inr tree ->
  present (items_item tree) = true ->
  truthy (items_item tree) = false ->
  responses (trace (handler r E env req)) = [(200%Z, JArr [])]
  /\ unhandled (handler r E env req) = None.
Proof.
  intros Hp Hget Hparse _ Hfalsy.
  destruct (run_success E env req r st xml tree Hp Hget Hparse) as [Hr Hu].
  rewrite Hr. unfold pharmacyList. rewrite Hfalsy. auto.
Qed.

Lemma falsy_item_gives_empty_array_witness :
  items_item tree_empty_item = JStr EmptyString
  /\ responses
       (trace (handler part_000 (sample_success xml_empty_item) sample_env
                 empty_request))
     = [(200%Z, JArr [])].
Proof.
  split; [reflexivity | ].
  exact (proj1 (falsy_item_gives_empty_array part_000
           (sample_success xml_empty_item) sample_env empty_request 200
           xml_empty_item tree_empty_item
           eq_refl eq_refl eq_refl eq_refl eq_refl)).
Defined.

(** C4.  When the environment holds no PHARMACY_API_KEY, every revision
    answers 500 with the fixed configuration message and requests nothing
    from the upstream, whatever the query holds. *)
Theorem missing_credential_is_config_error (r : revision) (E : externals)
    (env : process_env) (req : request) :
  assoc "PHARMACY_API_KEY" env = None ->
  responses (trace (handler r E env req)) = [(500%Z, config_error)]
  /\ outbound (trace (handler r E env req)) = []
  /\ unhandled (handler r E env req) = None.
Proof.
  intros Hnone.
  assert (Hk : truthy (serviceKey env) = false).
  { unfold serviceKey, env_get. rewrite Hnone. reflexivity. }
  rewrite (run_without_key E env req r Hk). repeat split.
Qed.

Lemma missing_credential_is_config_error_witness :
  responses
    (trace (handler part_001 (sample_success xml_one_item) []
              (sample_request "월")))
    = [(500%Z, config_error)]
  /\ outbound
       (trace (handler part_001 (sample_success xml_one_item) []
                 (sample_request "월"))) = []
  /\ unhandled (handler part_001 (sample_success xml_one_item) []
                  (sample_request "월")) = None.
Proof.
  exact (missing_credential_is_config_error part_001
           (sample_success xml_one_item) [] (sample_request "월") eq_refl).
Defined.

(** C9.  When the credential is missing and a required parameter is missing
    too, the answer is the 500 configuration error and no 400 is sent: the
    credential is checked first. *)
Theorem config_error_takes_precedence (r : revision) (E : externals)
    (env : process_env) (req : request) :
  assoc "PHARMACY_API_KEY" env = None ->
  param req "Q0" = JUndef \/ param req "Q1" = JUndef
  \/ param req "DG" = JUndef ->
  responses (trace (handler r E env req)) = [(500%Z, config_error)]
  /\ (forall body,
        ~ In (400%Z, body) (responses (trace (handler r E env req)))).
Proof.
  intros Hnone _.
  assert (Hk : truthy (serviceKey env) = false).
  { unfold serviceKey, env_get. rewrite Hnone. reflexivity. }
  rewrite (run_without_key E env req r Hk). split; [reflexivity | ].
  intros body [Hin | []]. inversion Hin.
Qed.

Lemma config_error_takes_precedence_witness :
  responses
    (trace (handler index_js (sample_success xml_one_item) [] empty_request))
    = [(500%Z, config_error)].
Proof.
  exact (proj1 (config_error_takes_precedence index_js
                  (sample_success xml_one_item) [] empty_request
                  eq_refl (or_introl eq_refl))).
Defined.

(** C3, as the code has it.  With the credential in place, a request in
    which Q0, Q1 or DG is missing or empty is answered 400 with the fixed
    message and without an upstream call by the two revisions that validate
    (index.js and the weekday-mapping one); the default-filling revision
    puts its defaults in place of what is missing and, when the values it
    then has convert to text, makes the upstream call. *)
Theorem missing_parameter_rejected_when_validated (r : revision)
    (E : externals) (env : process_env) (req : request) :
  truthy (serviceKey env) = true ->
  params_given req = false ->
  (validates r = true ->
   responses (trace (handler r E env req)) = [(400%Z, input_error)]
   /\ outbound (trace (handler r E env req)) = []
   /\ unhandled (handler r E env req) = None)
  /\ (validates r = false ->
      values_convert r req = true ->
      outbound (trace (handler r E env req)) = [outbound_url r env req]).
Proof.
  intros Hk Hmiss. split; intros Hv.
  - rewrite (run_missing_param E env req r Hv Hk Hmiss). repeat split.
  - intros Hc. apply outbound_once. unfold proceeds, passes_checks.
    rewrite Hk, Hv, Hc. reflexivity.
Qed.

Lemma missing_parameter_rejected_when_validated_witness :
  responses
    (trace (handler index_js (sample_success xml_one_item) sample_env
              empty_request))
    = [(400%Z, input_error)]
  /\ outbound
       (trace (handler index_js (sample_success xml_one_item) sample_env
                 empty_request)) = []
  /\ unhandled (handler index_js (sample_success xml_one_item) sample_env
                  empty_request) = None.
Proof.
  exact (proj1 (missing_parameter_rejected_when_validated index_js
                  (sample_success xml_one_item) sample_env empty_request
                  eq_refl eq_refl) eq_refl).
Defined.

(** C3 as written fails twice on the request without parameters: the
    default-filling revision calls the upstream and answers 200, and
    index.js without a credential answers 500. *)
Lemma missing_parameter_counterexample :
  param empty_request "Q0" = JUndef
  /\ ~ client_error_without_call
         (handler part_000 (sample_success xml_one_item) sample_env
            empty_request)
  /\ ~ client_error_without_call
         (handler index_js (sample_success xml_one_item) [] empty_request).
Proof.
  split; [reflexivity | split].
  - intros (code & body & _ & _ & Hout). vm_compute in Hout. discriminate.
  - intros (code & body & Hresp & Hcode & _). vm_compute in Hresp.
    inversion Hresp; subst. lia.
Qed.

(** C5, as the code has it.  When the upstream call fails with a non-empty
    string body that parses and holds a non-empty text at
    [response.header.resultMsg], index.js and the weekday-mapping revision
    answer with the upstream's status and a [message] made of the fixed
    prefix followed by that text; the default-filling revision does not
    read the body: it answers 500 with its fixed message, the error text
    and the raw body as [detail]. *)
Theorem upstream_result_message_prefixed (r : revision) (E : externals)
    (env : process_env) (req : request) (m body msg : string) (st : Z)
    (tree : jsval) :
  proceeds r env req = true ->
  axios_get E (outbound_url r env req)
    = Rejected m (Some {| status := st; data := JStr body |}) ->
  truthy (JStr body) = true ->
  parseStringPromise E (parser_opts r) (JStr body) = inr tree ->
  header_resultMsg tree = JStr msg ->
  truthy (JStr msg) = true ->
  (translates_errors r = true ->
   responses (trace (handler r E env req))
     = [(st, message_body ("API 응답 오류: " ++ msg))]
   /\ unhandled (handler r E env req) = None)
  /\ (translates_errors r = false ->
      responses (trace (handler r E env req))
        = [(500%Z,
            JObj [("message", JStr "데이터를 불러오는 데 실패했습니다.");
                  ("error", JStr m);
                  ("detail", JStr body)])]
      /\ unhandled (handler r E env req) = None).
Proof.
  intros Hp Hget Hbody Hparse Hmsg Htext. split; intros Ht.
  - assert (Hconv : converts (js_or (header_resultMsg tree)
                                (JStr "알 수 없는 API 응답 오류")) = true).
    { rewrite Hmsg. unfold js_or. rewrite Htext. reflexivity. }
    destruct (run_error_parsed E env req r m body st tree
                Ht Hp Hget Hbody Hparse Hconv) as [Hr Hu].
    rewrite Hr, Hmsg. unfold js_or. rewrite Htext. auto.
  - destruct r; try discriminate Ht.
    exact (part_000_error E env req m _ Hp Hget).
Qed.

Lemma upstream_result_message_prefixed_witness :
  responses
    (trace (handler index_js (sample_failure (JStr xml_error)) sample_env
              (sample_request "1")))
    = [(503%Z, message_body ("API 응답 오류: " ++ sample_limit))].
Proof.
  exact (proj1 (proj1 (upstream_result_message_prefixed index_js
           (sample_failure (JStr xml_error)) sample_env (sample_request "1")
           "Request failed with status code 503" xml_error sample_limit 503
           tree_error eq_refl eq_refl eq_refl eq_refl eq_refl eq_refl)
           eq_refl)).
Defined.

(** C5 as written fails on an upstream 503 whose body carries a result
    message: index.js sends the prefixed text, not the text itself, and the
    default-filling revision sends 500. *)
Lemma upstream_result_message_counterexample :
  parseStringPromise (sample_failure (JStr xml_error)) (parser_opts index_js)
    (JStr xml_error) = inr tree_error
  /\ header_resultMsg tree_error = JStr sample_limit
  /\ ~ answers_with_message
         (handler index_js (sample_failure (JStr xml_error)) sample_env
            (sample_request "1"))
         503 sample_limit
  /\ ~ answers_with_message
         (handler part_000 (sample_failure (JStr xml_error)) sample_env
            (sample_request "1"))
         503 sample_limit.
Proof.
  split; [reflexivity | split; [reflexivity | split]].
  - intros (body & Hresp & Hmsg). vm_compute in Hresp.
    inversion Hresp; subst. vm_compute in Hmsg. discriminate.
  - intros (body & Hresp & _). vm_compute in Hresp. discriminate.
Qed.

(** C6 at its failing input.  The upstream fails with status 503 and a
    body that axios has read as a JSON object, which the parser rejects.
    The weekday-mapping revision sends no response and a TypeError leaves
    the handler; index.js answers the same failure with its 500. *)
Theorem part_001_error_body_escapes :
  parseStringPromise (sample_failure (JObj [("error", JStr "busy")]))
    (parser_opts part_001) (JObj [("error", JStr "busy")])
    = inl "Non-whitespace before first tag."
  /\ responses
       (trace (handler part_001
                 (sample_failure (JObj [("error", JStr "busy")]))
                 sample_env (sample_request "월"))) = []
  /\ unhandled
       (handler part_001 (sample_failure (JObj [("error", JStr "busy")]))
          sample_env (sample_request "월"))
     = Some (TypeError "error.response.data.substring is not a function")
  /\ responses
       (trace (handler index_js
                 (sample_failure (JObj [("error", JStr "busy")]))
                 sample_env (sample_request "월")))
     = [(500%Z, malformed_error index_js)].
Proof.
  repeat split.
Qed.

(** C7 at its failing input.  [constructor] is no entry of the weekday
    table, yet the lookup finds the function every object inherits under
    that name, and the upstream is asked for that function's text instead
    of the weekday that came in. *)
Theorem inherited_name_replaces_weekday (E : externals) :
  assoc "constructor" Part001.dayMap_entries = None
  /\ outbound
       (trace (handler part_001 E sample_env (sample_request "constructor")))
     = ["http://apis.data.go.kr/B552657/ErmctInsttInfoInqireService/getParmacyList?ServiceKey=secret&Q0=서울특별시&Q1=강남구&DG=function Object() { [native code] }&pageNo=1&numOfRows=10"].
Proof.
  split; [reflexivity | ].
  rewrite outbound_once by reflexivity. reflexivity.
Qed.

(** A label of the table, for comparison: the upstream is asked for its
    code. *)
Example holiday_label_is_sent_as_code (E : externals) :
  outbound (trace (handler part_001 E sample_env (sample_request "공휴일")))
  = ["http://apis.data.go.kr/B552657/ErmctInsttInfoInqireService/getParmacyList?ServiceKey=secret&Q0=서울특별시&Q1=강남구&DG=8&pageNo=1&numOfRows=10"].
Proof.
  rewrite outbound_once by reflexivity. reflexivity.
Qed.

(** C8 at its failing input.  With the credential [secret], the first
    console line of the default-filling revision holds the credential in
    clear, for any upstream and any request whose values convert to text
    (the request without a query among them). *)
Theorem part_000_logs_credential (E : externals) (req : request) :
  proceeds part_000 sample_env req = true ->
  exists line rest,
    console (trace (handler part_000 E sample_env req))
      = [Val (JStr line)] :: rest
    /\ occurs_in "serviceKey=secret&" line = true.
Proof.
  intros Hp.
  destruct (part_000_logs_url E sample_env req Hp) as [rest Hrest].
  eexists. exists rest. split; [exact Hrest | ].
  unfold outbound_url.
  rewrite (part_000_url_shows_plain_key "secret" _ _ _ eq_refl).
  reflexivity.
Qed.

Lemma part_000_logs_credential_witness :
  exists line rest,
    console
      (trace (handler part_000 (sample_success xml_one_item) sample_env
                empty_request))
      = [Val (JStr line)] :: rest
    /\ occurs_in "serviceKey=secret&" line = true.
Proof.
  exact (part_000_logs_credential (sample_success xml_one_item)
           empty_request eq_refl).
Defined.

(** ** Further properties of the handlers *)

Section Shape.

Variable E : externals.
Variable env : process_env.
Variable req : request.

(** A request that fails a check is answered at that check. *)
Lemma run_rejected (r : revision) :
  passes_checks r env req = false ->
  handler r E env req =
    ([console_error
        [Val (JStr "API Key is not set in environment variables.")];
      res_status_json 500 config_error], inr tt)
  \/ handler r E env req =
       ([console_error
           [Val (JStr
              "Missing required query parameters: Q0 (sido), Q1 (sigungu), or DG (day).")];
         res_status_json 400 input_error], inr tt).
Proof.
  unfold passes_checks. intros Hp.
  destruct (truthy (serviceKey env)) eqn:Hk.
  - right. simpl in Hp.
    destruct (validates r) eqn:Hv; [ | discriminate Hp].
    simpl in Hp. apply run_missing_param; assumption.
  - left. apply run_without_key; assumption.
Qed.

(** A request that passes the checks with a value that does not convert
    ends in the TypeError of the conversion, before anything is logged,
    requested or sent. *)
Lemma run_conversion_fails (r : revision) :
  passes_checks r env req = true ->
  values_convert r req = false ->
  handler r E env req = ([], inl conversion_error).
Proof.
  unfold passes_checks, values_convert. intros Hpass Hconv.
  apply andb_true_iff in Hpass as [Hk Hpar].
  pose proof (serviceKey_converts env) as Hkey.
  destruct r; simpl in Hpar;
    try (destruct (params_given_true req Hpar) as (HQ0 & HQ1 & HDG));
    unfold handler, Index.getPharmacyData, Part000.getPharmacyData,
      Part001.getPharmacyData;
    fold (serviceKey env); fold (param req "Q0"); fold (param req "Q1");
    fold (param req "DG");
    use_facts; simpl negb; simpl orb; cbv iota;
    unfold template, ToString; cbn [forallb]; rewrite ?Hkey;
    repeat match type of Hconv with
           | context [converts ?v] => destruct (converts v)
           end;
    try discriminate Hconv; reflexivity.
Qed.

(** A request that does not reach the upstream call was answered at a
    check or ended in the conversion's TypeError. *)
Lemma run_stopped (r : revision) :
  proceeds r env req = false ->
  handler r E env req =
    ([console_error
        [Val (JStr "API Key is not set in environment variables.")];
      res_status_json 500 config_error], inr tt)
  \/ handler r E env req =
       ([console_error
           [Val (JStr
              "Missing required query parameters: Q0 (sido), Q1 (sigungu), or DG (day).")];
         res_status_json 400 input_error], inr tt)
  \/ handler r E env req = ([], inl conversion_error).
Proof.
  unfold proceeds. intros Hp.
  destruct (passes_checks r env req) eqn:Hpass.
  - right. right. apply run_conversion_fails; assumption.
  - destruct (run_rejected r Hpass) as [H | H]; auto.
Qed.

(** X1.  The upstream is called once when the request passes the checks
    and its values convert to text, and not at all otherwise. *)
Theorem upstream_called_iff_checks_pass (r : revision) :
  outbound (trace (handler r E env req))
  = if proceeds r env req then [outbound_url r env req] else [].
Proof.
  destruct (proceeds r env req) eqn:Hp.
  - apply outbound_once; assumption.
  - destruct (run_stopped r Hp) as [H | [H | H]]; rewrite H; reflexivity.
Qed.

(** X2.  index.js and the default-filling revision let an exception out in
    exactly one situation: the request passed the checks and one of the
    values on its way into the URL does not convert to text.  Whatever the
    upstream and the parser answer, nothing else leaves the handler. *)
Theorem index_js_and_part_000_throw_only_on_conversion :
  unhandled (handler index_js E env req)
    = (if conversion_fails index_js env req then Some conversion_error
       else None)
  /\ unhandled (handler part_000 E env req)
     = (if conversion_fails part_000 env req then Some conversion_error
        else None).
Proof.
  unfold conversion_fails. split.
  - destruct (proceeds index_js env req) eqn:Hp.
    + unfold proceeds in Hp. apply andb_true_iff in Hp as [Hpass Hconv].
      rewrite Hpass, Hconv.
      assert (Hp : proceeds index_js env req = true)
        by (unfold proceeds; rewrite Hpass, Hconv; reflexivity).
      enter_validated env req Hp; repeat (simpl; try answer); reflexivity.
    + destruct (passes_checks index_js env req) eqn:Hpass.
      * unfold proceeds in Hp. rewrite Hpass in Hp. cbn [andb] in Hp.
        rewrite Hp, (run_conversion_fails index_js Hpass Hp). reflexivity.
      * destruct (run_rejected index_js Hpass) as [H | H]; rewrite H;
          reflexivity.
  - destruct (proceeds part_000 env req) eqn:Hp.
    + unfold proceeds in Hp. apply andb_true_iff in Hp as [Hpass Hconv].
      rewrite Hpass, Hconv.
      assert (Hp : proceeds part_000 env req = true)
        by (unfold proceeds; rewrite Hpass, Hconv; reflexivity).
      conversions env req Hp. open_handler env req.
      repeat (simpl; try answer); reflexivity.
    + destruct (passes_checks part_000 env req) eqn:Hpass.
      * unfold proceeds in Hp. rewrite Hpass in Hp. cbn [andb] in Hp.
        rewrite Hp, (run_conversion_fails part_000 Hpass Hp). reflexivity.
      * destruct (run_rejected part_000 Hpass) as [H | H]; rewrite H;
          reflexivity.
Qed.

(** X3.  The weekday-mapping revision lets an exception out in exactly two
    situations: the request passed the checks and one of its values does
    not convert to text (the conversion's TypeError), or the request got
    as far as the upstream call and the call failed with a truthy body
    that is not a string (the TypeError of [substring] in the catch). *)
Theorem part_001_throws_in_exactly_two_situations :
  unhandled (handler part_001 E env req)
  = if conversion_fails part_001 env req then Some conversion_error
    else if proceeds part_001 env req
            && error_body_unreadable
                 (axios_get E (outbound_url part_001 env req))
    then Some (TypeError "error.response.data.substring is not a function")
    else None.
Proof.
  unfold conversion_fails.
  destruct (proceeds part_001 env req) eqn:Hp.
  - assert (Hp' := Hp).
    unfold proceeds in Hp'. apply andb_true_iff in Hp' as [Hpass Hconv].
    rewrite Hpass, Hconv. cbn [negb andb].
    enter_validated env req Hp. unfold error_body_unreadable.
    destruct (axios_get E _) as [[st d] | m [[st d] | ]]; simpl.
    + destruct d; simpl; try reflexivity;
        destruct (parseStringPromise E _ _); simpl; try reflexivity;
        destruct (truthy (items_item _)); reflexivity.
    + destruct d as [ | | [ | ] | n | [ | c s] | l | l | f ];
        cbv [truthy is_string negb andb]; simpl; try reflexivity.
      * destruct (n =? 0)%Z; reflexivity.
      * destruct (parseStringPromise E _ _); simpl; try reflexivity.
        match goal with
        | |- context [converts ?v] => destruct (converts v)
        end; reflexivity.
    + reflexivity.
  - destruct (passes_checks part_001 env req) eqn:Hpass.
    + unfold proceeds in Hp. rewrite Hpass in Hp. cbn [andb] in Hp.
      rewrite Hp, (run_conversion_fails part_001 Hpass Hp). reflexivity.
    + destruct (run_rejected part_001 Hpass) as [H | H]; rewrite H;
        reflexivity.
Qed.

(** The request whose Q0 owns a [toString] passes the checks of every
    revision and ends in the conversion's TypeError with nothing logged,
    requested or sent. *)
Example object_valued_Q0_ends_in_type_error (r : revision) :
  passes_checks r sample_env request_with_object_Q0 = true
  /\ handler r E sample_env request_with_object_Q0
     = ([], inl conversion_error).
Proof.
  destruct r; split; reflexivity.
Qed.

(** X4.  A run that ends normally has sent exactly one response, and
    sending it was the last thing it did. *)
Theorem normal_run_answers_once_at_the_end (r : revision) :
  unhandled (handler r E env req) = None ->
  exists code body,
    responses (trace (handler r E env req)) = [(code, body)]
    /\ final_event (trace (handler r E env req))
       = Some (res_status_json code body).
Proof.
  destruct (proceeds r env req) eqn:Hp.
  - enter r env req Hp; repeat (simpl; try answer); simpl; intros Hu;
      try discriminate Hu; eexists; eexists; split; reflexivity.
  - destruct (run_stopped r Hp) as [H | [H | H]]; rewrite H; intros Hu;
      try discriminate Hu; eexists; eexists; split; reflexivity.
Qed.

End Shape.

Lemma normal_run_answers_once_at_the_end_witness :
  exists code body,
    responses
      (trace (handler index_js (sample_success xml_one_item) sample_env
                (sample_request "1")))
      = [(code, body)]
    /\ final_event
         (trace (handler index_js (sample_success xml_one_item) sample_env
                   (sample_request "1")))
       = Some (res_status_json code body).
Proof.
  exact (normal_run_answers_once_at_the_end (sample_success xml_one_item)
           sample_env (sample_request "1") index_js eq_refl).
Defined.

Lemma pharmacyList_is_array (items : jsval) :
  isArray (pharmacyList items) = true.
Proof.
  unfold pharmacyList. destruct (truthy items); [ | reflexivity].
  destruct items; reflexivity.
Qed.

Section Fallbacks.

Variable E : externals.
Variable env : process_env.
Variable req : request.

(** X5.  When the upstream call succeeds but its body is not a string, or
    is a string the parser rejects, index.js and the weekday-mapping
    revision answer 500 with the generic failure message; the
    default-filling revision answers 500 with the thrown error's text and
    the note that no response data came. *)
Theorem unusable_success_body_is_generic_500 (r : revision) (st : Z)
    (d : jsval) (pm : string) :
  proceeds r env req = true ->
  axios_get E (outbound_url r env req)
    = Resolved {| status := st; data := d |} ->
  is_string d = false \/ parseStringPromise E (parser_opts r) d = inl pm ->
  unhandled (handler r E env req) = None
  /\ (translates_errors r = true ->
      responses (trace (handler r E env req)) = [(500%Z, generic_error)])
  /\ (translates_errors r = false ->
      exists text,
        responses (trace (handler r E env req))
          = [(500%Z,
              JObj [("message", JStr "데이터를 불러오는 데 실패했습니다.");
                    ("error", JStr text);
                    ("detail", JStr "No response data from external API")])]).
Proof.
  intros Hp Hget Hbad.
  enter r env req Hp; unfold outbound_url, parser_opts in Hget, Hbad;
    rewrite Hget; simpl;
    (destruct d; simpl;
     [ | | | | destruct Hbad as [Hs | Hparse];
             [discriminate Hs | rewrite Hparse; simpl] | | | ]);
    repeat split; intros Ht; try discriminate Ht; try reflexivity;
    eexists; reflexivity.
Qed.

(** X6.  When the upstream call fails without a response, or with a
    response whose body is falsy, index.js and the weekday-mapping revision
    answer 500 with the generic failure message. *)
Theorem failure_without_body_is_generic_500 (r : revision) :
  translates_errors r = true ->
  proceeds r env req = true ->
  error_without_body (axios_get E (outbound_url r env req)) = true ->
  responses (trace (handler r E env req)) = [(500%Z, generic_error)]
  /\ unhandled (handler r E env req) = None.
Proof.
  intros Ht Hp Hnone.
  enter r env req Hp; try discriminate Ht;
    unfold outbound_url, error_without_body in Hnone;
    (destruct (axios_get E _) as [resp | m [[st d] | ]];
     [discriminate Hnone | | ]); simpl in *;
    try (apply negb_true_iff in Hnone; rewrite Hnone); simpl; auto.
Qed.

(** X7.  When the error body parses but holds nothing truthy at
    [response.header.resultMsg], the upstream's status is still forwarded
    and the message carries the stand-in text. *)
Theorem error_without_result_message_uses_stand_in (r : revision)
    (m body : string) (st : Z) (tree : jsval) :
  translates_errors r = true ->
  proceeds r env req = true ->
  axios_get E (outbound_url r env req)
    = Rejected m (Some {| status := st; data := JStr body |}) ->
  truthy (JStr body) = true ->
  parseStringPromise E (parser_opts r) (JStr body) = inr tree ->
  truthy (header_resultMsg tree) = false ->
  responses (trace (handler r E env req))
    = [(st, message_body "API 응답 오류: 알 수 없는 API 응답 오류")]
  /\ unhandled (handler r E env req) = None.
Proof.
  intros Ht Hp Hget Hbody Hparse Hnone.
  assert (Hconv : converts (js_or (header_resultMsg tree)
                              (JStr "알 수 없는 API 응답 오류")) = true).
  { unfold js_or. rewrite Hnone. reflexivity. }
  destruct (run_error_parsed E env req r m body st tree
              Ht Hp Hget Hbody Hparse Hconv) as [Hr Hu].
  rewrite Hr. unfold js_or. rewrite Hnone. auto.
Qed.

(** X8.  The default-filling revision only ever answers 200 or 500, and a
    200 always carries an array. *)
Theorem part_000_answers_200_array_or_500 (code : Z) (body : jsval) :
  In (code, body) (responses (trace (handler part_000 E env req))) ->
  (code = 200%Z /\ isArray body = true) \/ code = 500%Z.
Proof.
  destruct (proceeds part_000 env req) eqn:Hp.
  - conversions env req Hp. open_handler env req.
    destruct (axios_get E _) as [[st d] | m resp]; simpl.
    + destruct d; simpl;
        try (intros [Hin | []]; inversion Hin; right; reflexivity).
      destruct (parseStringPromise E _ _) as [pm | tree]; simpl;
        intros [Hin | []]; inversion Hin; [right; reflexivity | left].
      split; [reflexivity | ]. apply (pharmacyList_is_array (items_item tree)).
    + intros [Hin | []]; inversion Hin. right; reflexivity.
  - destruct (passes_checks part_000 env req) eqn:Hpass.
    + unfold proceeds in Hp. rewrite Hpass in Hp. cbn [andb] in Hp.
      rewrite (run_conversion_fails E env req part_000 Hpass Hp).
      intros [].
    + unfold passes_checks in Hpass. simpl in Hpass.
      rewrite andb_true_r in Hpass.
      rewrite (run_without_key E env req part_000 Hpass). simpl.
      intros [Hin | []]; inversion Hin. right; reflexivity.
Qed.

(** X9.  An empty credential counts as a missing one: the answer is the
    configuration error and the upstream is not called. *)
Theorem empty_credential_is_config_error (r : revision) :
  assoc "PHARMACY_API_KEY" env = Some EmptyString ->
  responses (trace (handler r E env req)) = [(500%Z, config_error)]
  /\ outbound (trace (handler r E env req)) = []
  /\ unhandled (handler r E env req) = None.
Proof.
  intros Hempty.
  assert (Hk : truthy (serviceKey env) = false).
  { unfold serviceKey, env_get. rewrite Hempty. reflexivity. }
  rewrite (run_without_key E env req r Hk). repeat split.
Qed.

End Fallbacks.

Lemma unusable_success_body_is_generic_500_witness :
  unhandled
    (handler index_js
       (sample_platform
          (Resolved {| status := 200; data := JObj [("items", JArr [])] |}))
       sample_env (sample_request "1")) = None
  /\ responses
       (trace (handler index_js
                 (sample_platform
                    (Resolved {| status := 200;
                                 data := JObj [("items", JArr [])] |}))
                 sample_env (sample_request "1")))
     = [(500%Z, generic_error)].
Proof.
  destruct (unusable_success_body_is_generic_500
              (sample_platform
                 (Resolved {| status := 200;
                              data := JObj [("items", JArr [])] |}))
              sample_env (sample_request "1") index_js 200
              (JObj [("items", JArr [])]) EmptyString
              eq_refl eq_refl (or_introl eq_refl)) as (Hu & Ht & _).
  split; [exact Hu | exact (Ht eq_refl)].
Defined.

Lemma failure_without_body_is_generic_500_witness :
  responses
    (trace (handler part_001 (sample_platform (Rejected "Network Error" None))
              sample_env (sample_request "월")))
    = [(500%Z, generic_error)]
  /\ unhandled
       (handler part_001 (sample_platform (Rejected "Network Error" None))
          sample_env (sample_request "월")) = None.
Proof.
  exact (failure_without_body_is_generic_500
           (sample_platform (Rejected "Network Error" None))
           sample_env (sample_request "월") part_001
           eq_refl eq_refl eq_refl).
Defined.

Lemma error_without_result_message_uses_stand_in_witness :
  responses
    (trace (handler index_js gateway_failure sample_env (sample_request "1")))
    = [(401%Z, message_body "API 응답 오류: 알 수 없는 API 응답 오류")]
  /\ unhandled
       (handler index_js gateway_failure sample_env (sample_request "1"))
     = None.
Proof.
  exact (error_without_result_message_uses_stand_in gateway_failure
           sample_env (sample_request "1") index_js
           "Request failed with status code 401" xml_gateway_error 401
           tree_gateway_error eq_refl eq_refl eq_refl eq_refl eq_refl
           eq_refl).
Defined.

Lemma part_000_answers_200_array_or_500_witness :
  (200%Z = 200%Z /\ isArray (JArr [sample_record "A"]) = true)
  \/ 200%Z = 500%Z.
Proof.
  exact (part_000_answers_200_array_or_500 (sample_success xml_one_item)
           sample_env empty_request 200 (JArr [sample_record "A"])
           (or_introl eq_refl)).
Defined.

Lemma empty_credential_is_config_error_witness :
  responses
    (trace (handler index_js (sample_success xml_one_item)
              (env_with_key EmptyString) (sample_request "1")))
    = [(500%Z, config_error)]
  /\ outbound
       (trace (handler index_js (sample_success xml_one_item)
                 (env_with_key EmptyString) (sample_request "1"))) = []
  /\ unhandled
       (handler index_js (sample_success xml_one_item)
          (env_with_key EmptyString) (sample_request "1")) = None.
Proof.
  exact (empty_credential_is_config_error (sample_success xml_one_item)
           (env_with_key EmptyString) (sample_request "1") index_js eq_refl).
Defined.

(** ** The credential and what it can influence *)

(** X10.  Which credential is configured shows in the responses only
    through what the upstream answers: two non-empty credentials that get
    the same answer from the upstream lead to the same responses and the
    same ending, in every revision. *)
Theorem responses_ignore_the_credential (r : revision) (E : externals)
    (req : request) (k1 k2 : string) :
  truthy (JStr k1) = true ->
  truthy (JStr k2) = true ->
  axios_get E (outbound_url r (env_with_key k1) req)
    = axios_get E (outbound_url r (env_with_key k2) req) ->
  responses (trace (handler r E (env_with_key k1) req))
    = responses (trace (handler r E (env_with_key k2) req))
  /\ unhandled (handler r E (env_with_key k1) req)
     = unhandled (handler r E (env_with_key k2) req).
Proof.
  intros H1 H2 Hget.
  destruct (negb (validates r) || params_given req) eqn:Hchk.
  - destruct (values_convert r req) eqn:Hc.
    + unfold values_convert in Hc.
      destruct r; simpl in Hchk;
        try (destruct (params_given_true req Hchk) as (HQ0 & HQ1 & HDG));
        apply andb_true_iff in Hc as [Hc ?];
        apply andb_true_iff in Hc as [? ?];
        try match goal with
            | H : converts (param req "DG") = true |- _ =>
                pose proof (convertDG_converts _ H)
            end;
        unfold outbound_url in Hget;
        unfold handler, Index.getPharmacyData, Part000.getPharmacyData,
          Part001.getPharmacyData;
        change (env_get (env_with_key k1) "PHARMACY_API_KEY") with (JStr k1);
        change (env_get (env_with_key k2) "PHARMACY_API_KEY") with (JStr k2);
        change (serviceKey (env_with_key k1)) with (JStr k1) in Hget;
        change (serviceKey (env_with_key k2)) with (JStr k2) in Hget;
        fold (param req "Q0"); fold (param req "Q1"); fold (param req "DG");
        use_facts; simpl negb; simpl orb; cbv iota;
        unfold Index.try_block, Index.catch_block, Part000.try_block,
          Part000.catch_block, Part001.try_block, Part001.catch_block,
          await_get, await_parse, has_response_data, response_data,
          response_status, template, ToString;
        cbn [forallb];
        change (converts (JStr k1)) with true;
        change (converts (JStr k2)) with true;
        use_facts; cbn [andb]; simpl;
        rewrite Hget; repeat (simpl; try answer); split; reflexivity.
    + rewrite !run_conversion_fails; auto;
        unfold passes_checks;
        [ change (serviceKey (env_with_key k2)) with (JStr k2); rewrite H2
        | change (serviceKey (env_with_key k1)) with (JStr k1); rewrite H1 ];
        exact Hchk.
  - apply orb_false_iff in Hchk as [Hv Hpar].
    apply negb_false_iff in Hv.
    rewrite !run_missing_param; auto.
Qed.

Lemma responses_ignore_the_credential_witness :
  responses
    (trace (handler part_000 (sample_failure (JStr xml_error))
              (env_with_key "secret") empty_request))
    = responses
        (trace (handler part_000 (sample_failure (JStr xml_error))
                  (env_with_key "another-secret") empty_request))
  /\ unhandled
       (handler part_000 (sample_failure (JStr xml_error))
          (env_with_key "secret") empty_request)
     = unhandled
         (handler part_000 (sample_failure (JStr xml_error))
            (env_with_key "another-secret") empty_request).
Proof.
  exact (responses_ignore_the_credential part_000
           (sample_failure (JStr xml_error)) empty_request
           "secret" "another-secret" eq_refl eq_refl eq_refl).
Defined.

(** X11.  In index.js the console learns of the credential nothing but
    its length: two non-empty credentials of one length that get the same
    answer from the upstream leave the same console lines. *)
Theorem index_js_console_shows_only_key_length (E : externals)
    (req : request) (k1 k2 : string) :
  js_length k1 = js_length k2 ->
  truthy (JStr k1) = true ->
  truthy (JStr k2) = true ->
  axios_get E (outbound_url index_js (env_with_key k1) req)
    = axios_get E (outbound_url index_js (env_with_key k2) req) ->
  console (trace (handler index_js E (env_with_key k1) req))
  = console (trace (handler index_js E (env_with_key k2) req)).
Proof.
  intros Hlen H1 H2 Hget.
  destruct (index_js_console_hides_credential E req k1 k2
              Hlen H1 H2 Hget) as [Hconsole _].
  exact Hconsole.
Qed.

Lemma index_js_console_shows_only_key_length_witness :
  console
    (trace (handler index_js (sample_success xml_one_item)
              (env_with_key "secret") (sample_request "1")))
  = console
      (trace (handler index_js (sample_success xml_one_item)
                (env_with_key "terces") (sample_request "1"))).
Proof.
  exact (index_js_console_shows_only_key_length
           (sample_success xml_one_item) (sample_request "1")
           "secret" "terces" eq_refl eq_refl eq_refl eq_refl).
Defined.

(** ** The weekday mapping in the running handler *)

(** The lookup goes by the string form of the value, so a value that
    prints as a label is mapped like the label. *)
Lemma label_value_is_mapped (v code : jsval) :
  In (to_string v, code) Part001.dayMap_entries ->
  Part001.convertDG v = code.
Proof.
  unfold Part001.dayMap_entries, Part001.convertDG, Part001.dayMap, get_prop.
  intros H. simpl in H.
  repeat (destruct H as [H | H];
          [injection H as Hs Hc; rewrite <- Hs, <- Hc; reflexivity | ]).
  destruct H.
Qed.

(** The text of a built-in function is no key of the table and no
    inherited name. *)
Lemma native_text_is_no_key (name : string) :
  Part001.convertDG (JFun name) = JFun name.
Proof.
  reflexivity.
Qed.

(** X12.  Mapping a weekday twice is mapping it once: whatever the mapping
    returns (a code, an inherited value, or the value that came in) is left
    alone by a second pass.  The upstream's own codes therefore pass
    unchanged. *)
Theorem convertDG_idempotent (v : jsval) :
  Part001.convertDG (Part001.convertDG v) = Part001.convertDG v.
Proof.
  unfold Part001.convertDG at 2 3. unfold Part001.dayMap, get_prop.
  destruct (assoc (to_string v) Part001.dayMap_entries) as [c | ] eqn:Hown.
  - apply dayMap_lookup in Hown. simpl in Hown.
    repeat (destruct Hown as [Hown | Hown]; [subst c; reflexivity | ]).
    destruct Hown.
  - destruct (object_prototype_values (to_string v))
      as [Hp | [Hp | [name Hp]]]; rewrite Hp.
    + change (js_or JUndef v) with v.
      unfold Part001.convertDG, Part001.dayMap, get_prop.
      rewrite Hown, Hp. reflexivity.
    + reflexivity.
    + reflexivity.
Qed.

Section Weekday.

Variable E : externals.
Variable env : process_env.
Variable req : request.

(** X13.  When the weekday of a request that gets as far as the upstream
    call (its checks pass and its values convert to text) prints as a label
    of the table, the URL requested carries the label's code in the DG slot
    and the other values as they came. *)
Theorem weekday_label_reaches_upstream_as_code (code : string) :
  proceeds part_001 env req = true ->
  In (to_string (param req "DG"), JStr code) Part001.dayMap_entries ->
  outbound (trace (handler part_001 E env req))
  = [Index.apiUrl (serviceKey env) (param req "Q0") (param req "Q1")
       (JStr code)].
Proof.
  intros Hp Hlabel.
  rewrite (outbound_once E env req part_001 Hp). unfold outbound_url.
  rewrite (label_value_is_mapped _ _ Hlabel). reflexivity.
Qed.

(** X14.  For a request that gets as far as the upstream call, the
    weekday-mapping revision starts its console output with the weekday as
    it came and the weekday as it will be sent. *)
Theorem part_001_logs_both_weekdays :
  proceeds part_001 env req = true ->
  exists rest,
    console (trace (handler part_001 E env req))
    = [Val (JStr "Original DG from request:"); Val (param req "DG")]
        :: [Val (JStr "Converted DG for API call:");
            Val (Part001.convertDG (param req "DG"))]
        :: rest.
Proof.
  intros Hp.
  enter_validated env req Hp; repeat (simpl; try answer);
    eexists; reflexivity.
Qed.

(** X15.  When the mapping leaves the weekday alone and the upstream call
    succeeds, the weekday-mapping revision answers exactly as index.js
    does, whatever the body holds and whatever the parser makes of it. *)
Theorem part_001_answers_like_index_js_on_success (resp : axios_response) :
  Part001.convertDG (param req "DG") = param req "DG" ->
  axios_get E (outbound_url index_js env req) = Resolved resp ->
  responses (trace (handler part_001 E env req))
    = responses (trace (handler index_js E env req))
  /\ unhandled (handler part_001 E env req)
     = unhandled (handler index_js E env req).
Proof.
  intros Hsame Hget.
  destruct (truthy (serviceKey env)) eqn:Hk.
  - destruct (params_given req) eqn:Hpar.
    + assert (Hpass1 : passes_checks part_001 env req = true)
        by (unfold passes_checks; rewrite Hk, Hpar; reflexivity).
      assert (Hpass0 : passes_checks index_js env req = true)
        by (unfold passes_checks; rewrite Hk, Hpar; reflexivity).
      destruct (params_given_true req Hpar) as (HQ0 & HQ1 & HDG).
      pose proof (serviceKey_converts env) as Hkey.
      destruct (converts (param req "Q0")) eqn:C0,
        (converts (param req "Q1")) eqn:C1,
        (converts (param req "DG")) eqn:CDG;
        try (rewrite (run_conversion_fails E env req part_001 Hpass1),
               (run_conversion_fails E env req index_js Hpass0);
             [split; reflexivity | | ];
             unfold values_convert; rewrite C0, C1, CDG; reflexivity).
      pose proof (convertDG_converts _ CDG).
      unfold outbound_url in Hget. open_handler env req.
      rewrite Hsame. unfold Part001.apiUrl. rewrite Hget.
      destruct resp as [st d].
      change Part001.parser_opts with Index.parser_opts.
      repeat (simpl; try answer); split; reflexivity.
    + rewrite !run_missing_param by auto. split; reflexivity.
  - rewrite !run_without_key by assumption. split; reflexivity.
Qed.

End Weekday.

Lemma weekday_label_reaches_upstream_as_code_witness :
  outbound
    (trace (handler part_001 (sample_success xml_one_item) sample_env
              (sample_request "공휴일")))
  = [Index.apiUrl (JStr "secret") (JStr "서울특별시") (JStr "강남구")
       (JStr "8")].
Proof.
  apply (weekday_label_reaches_upstream_as_code
           (sample_success xml_one_item) sample_env (sample_request "공휴일")
           "8"); [reflexivity | simpl; tauto].
Defined.

Lemma part_001_logs_both_weekdays_witness :
  exists rest,
    console
      (trace (handler part_001 (sample_success xml_one_item) sample_env
                (sample_request "토")))
    = [Val (JStr "Original DG from request:"); Val (JStr "토")]
        :: [Val (JStr "Converted DG for API call:"); Val (JStr "6")]
        :: rest.
Proof.
  exact (part_001_logs_both_weekdays (sample_success xml_one_item)
           sample_env (sample_request "토") eq_refl).
Defined.

Lemma part_001_answers_like_index_js_on_success_witness :
  responses
    (trace (handler part_001 (sample_success xml_two_items) sample_env
              (sample_request "3")))
    = responses
        (trace (handler index_js (sample_success xml_two_items) sample_env
                  (sample_request "3")))
  /\ unhandled
       (handler part_001 (sample_success xml_two_items) sample_env
          (sample_request "3"))
     = unhandled
         (handler index_js (sample_success xml_two_items) sample_env
            (sample_request "3")).
Proof.
  exact (part_001_answers_like_index_js_on_success
           (sample_success xml_two_items) sample_env (sample_request "3")
           {| status := 200; data := JStr xml_two_items |}
           eq_refl eq_refl).
Defined.

(** ** How the request URL is put together *)

Lemma hex_digit_code (n : nat) :
  n < 16 ->
  nat_of_ascii (hex_digit n) = if n <? 10 then 48 + n else 55 + n.
Proof.
  intros H.
  do 16 (destruct n as [ | n]; [reflexivity | ]). lia.
Qed.

Lemma hex_digit_is_query_char (n : nat) :
  n < 16 -> query_char (hex_digit n) = true.
Proof.
  intros H.
  do 16 (destruct n as [ | n]; [reflexivity | ]). lia.
Qed.

Lemma hex_digit_inj (a b : nat) :
  a < 16 -> b < 16 -> hex_digit a = hex_digit b -> a = b.
Proof.
  intros Ha Hb H. apply (f_equal nat_of_ascii) in H.
  rewrite !hex_digit_code in H by assumption.
  destruct (a <? 10) eqn:Ea, (b <? 10) eqn:Eb;
    try apply Nat.ltb_lt in Ea; try apply Nat.ltb_ge in Ea;
    try apply Nat.ltb_lt in Eb; try apply Nat.ltb_ge in Eb; lia.
Qed.

Lemma nat_of_ascii_inj (c d : ascii) :
  nat_of_ascii c = nat_of_ascii d -> c = d.
Proof.
  intros H. rewrite <- (ascii_nat_embedding c), <- (ascii_nat_embedding d).
  rewrite H. reflexivity.
Qed.

Lemma urlencode_cons (c : ascii) (r : string) :
  urlencode (String c r)
  = if form_safe c then String c (urlencode r)
    else if nat_of_ascii c =? 32 then String "+"%char (urlencode r)
    else String "%"%char
           (String (hex_digit (nat_of_ascii c / 16))
              (String (hex_digit (nat_of_ascii c mod 16)) (urlencode r))).
Proof.
  reflexivity.
Qed.

Lemma hex_digits_of_byte (c : ascii) :
  nat_of_ascii c / 16 < 16 /\ nat_of_ascii c mod 16 < 16.
Proof.
  pose proof (nat_ascii_bounded c) as Hb. split.
  - apply Nat.Div0.div_lt_upper_bound. lia.
  - apply Nat.mod_upper_bound. lia.
Qed.

(** An encoded value is made of letters, digits and [*-._+%] only. *)
Lemma urlencode_stays_in_query_chars (s : string) :
  forallb query_char (list_ascii_of_string (urlencode s)) = true.
Proof.
  induction s as [ | c s IH]; [reflexivity | ].
  rewrite urlencode_cons.
  destruct (hex_digits_of_byte c) as [Hhi Hlo].
  destruct (form_safe c) eqn:Hsafe;
    [ | destruct (nat_of_ascii c =? 32)];
    cbn [list_ascii_of_string forallb].
  - unfold query_char at 1. rewrite Hsafe. exact IH.
  - exact IH.
  - rewrite !hex_digit_is_query_char by assumption. exact IH.
Qed.

(** Different values have different encodings. *)
Lemma urlencode_inj (s t : string) :
  urlencode s = urlencode t -> s = t.
Proof.
  revert t. induction s as [ | c s IH]; intros [ | d t];
    rewrite ?urlencode_cons.
  - reflexivity.
  - destruct (form_safe d); [discriminate | ].
    destruct (nat_of_ascii d =? 32); discriminate.
  - destruct (form_safe c); [discriminate | ].
    destruct (nat_of_ascii c =? 32); discriminate.
  - destruct (hex_digits_of_byte c) as [Hchi Hclo].
    destruct (hex_digits_of_byte d) as [Hdhi Hdlo].
    destruct (form_safe c) eqn:Sc, (form_safe d) eqn:Sd.
    + intros H. injection H as Hcd Hst. rewrite Hcd, (IH _ Hst). reflexivity.
    + destruct (nat_of_ascii d =? 32); intros H; injection H as Hcd Hst;
        subst c; discriminate Sc.
    + destruct (nat_of_ascii c =? 32); intros H; injection H as Hcd Hst;
        subst d; discriminate Sd.
    + destruct (nat_of_ascii c =? 32) eqn:Ec, (nat_of_ascii d =? 32) eqn:Ed;
        intros H; try discriminate H.
      * injection H as Hst. apply Nat.eqb_eq in Ec, Ed.
        rewrite (IH _ Hst).
        rewrite (nat_of_ascii_inj c d) by (rewrite Ec, Ed; reflexivity).
        reflexivity.
      * injection H as Hhi Hlo Hst.
        apply hex_digit_inj in Hhi; [ | assumption | assumption].
        apply hex_digit_inj in Hlo; [ | assumption | assumption].
        rewrite (IH _ Hst).
        rewrite (nat_of_ascii_inj c d); [reflexivity | ].
        rewrite (Nat.div_mod_eq (nat_of_ascii c) 16).
        rewrite (Nat.div_mod_eq (nat_of_ascii d) 16).
        f_equal; [f_equal; exact Hhi | exact Hlo].
Qed.

Lemma append_inv_head (p x y : string) : p ++ x = p ++ y -> x = y.
Proof.
  induction p as [ | c p IH]; intros H; [exact H | ].
  injection H as H. exact (IH H).
Qed.

(** Where two strings of query characters followed by [&] and more agree,
    they agree part by part. *)
Lemma split_at_ampersand (x y r r' : string) :
  forallb query_char (list_ascii_of_string x) = true ->
  forallb query_char (list_ascii_of_string y) = true ->
  x ++ String "&" r = y ++ String "&" r' ->
  x = y /\ r = r'.
Proof.
  revert y. induction x as [ | c x IH]; intros [ | d y] Hx Hy H.
  - injection H as H. auto.
  - injection H as Hd _. subst d. discriminate Hy.
  - injection H as Hc _. subst c. discriminate Hx.
  - injection H as Hcd H. subst d.
    cbn [list_ascii_of_string forallb] in Hx, Hy.
    apply andb_true_iff in Hx as [_ Hx]. apply andb_true_iff in Hy as [_ Hy].
    destruct (IH y Hx Hy H) as [Hxy Hr]. subst y. auto.
Qed.

(** X16.  The URL the default-filling revision builds determines the
    credential and the three values it was built from: no value can pass
    for another or reach into a neighbouring slot. *)
Theorem part_000_url_determines_its_parameters
    (k q0 q1 dg k' q0' q1' dg' : string) :
  Part000.apiUrl (JStr k) (JStr q0) (JStr q1) (JStr dg)
    = Part000.apiUrl (JStr k') (JStr q0') (JStr q1') (JStr dg') ->
  k = k' /\ q0 = q0' /\ q1 = q1' /\ dg = dg'.
Proof.
  intros H.
  change (Part000.apiUrl (JStr k) (JStr q0) (JStr q1) (JStr dg))
    with ((Part000.baseUrl ++ "?serviceKey=")
            ++ (urlencode k ++ String "&"
                  ("Q0=" ++ (urlencode q0 ++ String "&"
                     ("Q1=" ++ (urlencode q1 ++ String "&"
                        ("DG=" ++ urlencode dg))))))) in H.
  change (Part000.apiUrl (JStr k') (JStr q0') (JStr q1') (JStr dg'))
    with ((Part000.baseUrl ++ "?serviceKey=")
            ++ (urlencode k' ++ String "&"
                  ("Q0=" ++ (urlencode q0' ++ String "&"
                     ("Q1=" ++ (urlencode q1' ++ String "&"
                        ("DG=" ++ urlencode dg'))))))) in H.
  apply append_inv_head in H.
  apply split_at_ampersand in H as [Hk H];
    try apply urlencode_stays_in_query_chars.
  apply append_inv_head in H.
  apply split_at_ampersand in H as [Hq0 H];
    try apply urlencode_stays_in_query_chars.
  apply append_inv_head in H.
  apply split_at_ampersand in H as [Hq1 H];
    try apply urlencode_stays_in_query_chars.
  apply append_inv_head in H.
  repeat split; apply urlencode_inj; assumption.
Qed.

Lemma append_assoc (a b c : string) : (a ++ b) ++ c = a ++ (b ++ c).
Proof.
  induction a as [ | x a IH]; [reflexivity | ].
  change (String x ((a ++ b) ++ c) = String x (a ++ (b ++ c))).
  rewrite IH. reflexivity.
Qed.

(** X17.  index.js puts the values into the URL as they are, so a value
    can reach into the next slot: text that follows [&Q1=] inside Q0 gives
    the same URL as that text at the head of Q1. *)
Theorem index_js_url_lets_a_value_spill (key dg : jsval)
    (q0 x q1 : string) :
  Index.apiUrl key (JStr (q0 ++ "&Q1=" ++ x)) (JStr q1) dg
  = Index.apiUrl key (JStr q0) (JStr (x ++ "&Q1=" ++ q1)) dg.
Proof.
  unfold Index.apiUrl.
  change (to_string (JStr (q0 ++ "&Q1=" ++ x))) with (q0 ++ "&Q1=" ++ x).
  change (to_string (JStr (x ++ "&Q1=" ++ q1))) with (x ++ "&Q1=" ++ q1).
  change (to_string (JStr q0)) with q0.
  change (to_string (JStr q1)) with q1.
  f_equal. f_equal. f_equal.
  rewrite !append_assoc. reflexivity.
Qed.

Lemma part_000_url_determines_its_parameters_witness :
  "secret" = "secret" /\ "서울특별시" = "서울특별시" /\ "강남구" = "강남구"
  /\ "월" = "월".
Proof.
  exact (part_000_url_determines_its_parameters
           "secret" "서울특별시" "강남구" "월"
           "secret" "서울특별시" "강남구" "월" eq_refl).
Defined.
